(** * femscript: the host-side marshalling layer of [femscript.py]

    A shallow embedding of the Python module [femscript.py]: the value
    codec ([fs_type], [to_fs], [to_py], [error]), the function adapter built
    by [wrap_function], the binding list of a [Femscript] instance
    ([add_variable], [variables], [execute]), the module table ([parse],
    [add_module]) and the textual rendering of [Scope].

    Python values are dynamically typed; the embedding keeps the runtime
    type of every value ([type_of]) and makes every exception explicit in
    the [result] type. *)

From Stdlib Require Import ZArith List String Ascii Bool Lia.
From Stdlib Require Import Floats.SpecFloat.
From Stdlib Require Init.Byte.
Import ListNotations.

Local Open Scope string_scope.
Local Open Scope Z_scope.

Set Warnings "-register-all".

(** ** Python floats: IEEE 754 binary64, as [spec_float] *)

Module PyFloat.

Definition prec : Z := 53.
Definition emax : Z := 1024.

Definition t : Type := spec_float.

(** [0.0] *)
Definition zero : t := S754_zero false.

(** [float(n)] for an [int]: the nearest double, ties to even;
    [None] is Python's [OverflowError]. *)
Definition of_int (n : Z) : option t :=
  match binary_normalize prec emax n 0 false with
  | S754_infinity _ => None
  | S754_nan => None
  | f => Some f
  end.

(** [float(b)] for a [bool] *)
Definition of_bool (b : bool) : t :=
  if b then S754_finite false 4503599627370496%positive (-52) else zero.

(** [n.is_integer()] *)
Definition is_integer (f : t) : bool :=
  match f with
  | S754_zero _ => true
  | S754_infinity _ => false
  | S754_nan => false
  | S754_finite _ m e =>
      if 0 <=? e then true
      else Z.eqb (Z.land (Zpos m) (Z.ones (- e))) 0
  end.

(** [math.floor(n)] on a finite float; the codec only calls it when
    [is_integer] holds.  [Z.shiftl] with a negative amount shifts right,
    rounding towards minus infinity. *)
Definition floor (f : t) : Z :=
  match f with
  | S754_finite s m e => Z.shiftl (cond_Zopp s (Zpos m)) e
  | _ => 0
  end.

(** [bool(n)]: every float but the two zeros is true *)
Definition truth (f : t) : bool :=
  match f with
  | S754_zero _ => false
  | _ => true
  end.

End PyFloat.

(** ** Exceptions and results *)

(** The classes of the exceptions that occur: the module's own
    [FemscriptException], a class derived from it (directly or through
    other classes), the built-in classes the codec raises, and any other
    class, which does not derive from [FemscriptException]. *)
Inductive exc_class : Type :=
| FemscriptException
| FemscriptExceptionSubclass (name : string)
| AttributeError
| TypeError
| KeyError
| OverflowError
| OtherException (name : string).

Definition exc_class_eqb (a b : exc_class) : bool :=
  match a, b with
  | FemscriptException, FemscriptException => true
  | FemscriptExceptionSubclass x, FemscriptExceptionSubclass y => String.eqb x y
  | AttributeError, AttributeError => true
  | TypeError, TypeError => true
  | KeyError, KeyError => true
  | OverflowError, OverflowError => true
  | OtherException x, OtherException y => String.eqb x y
  | _, _ => false
  end.

(** An exception object: its class and [str(exc)]. *)
Record exn : Type := Exn { exn_class : exc_class; exn_msg : string }.

(** [isinstance(exc, FemscriptException)]: what the clause
    [except FemscriptException] tests. *)
Definition isinstance_FemscriptException (e : exn) : bool :=
  match exn_class e with
  | FemscriptException => true
  | FemscriptExceptionSubclass _ => true
  | _ => false
  end.

Inductive result (A : Type) : Type :=
| Ok (a : A)
| Raise (e : exn).
Arguments Ok {A} a.
Arguments Raise {A} e.

Definition bind {A B : Type} (r : result A) (k : A -> result B) : result B :=
  match r with
  | Ok a => k a
  | Raise e => Raise e
  end.

Notation "x <- r ;; k" := (bind r (fun x => k))
  (at level 61, r at next level, right associativity).

(** ** Host values and engine tokens *)

(** The two mapping classes of the module: the built-in [dict] and
    [class Scope(dict)]. *)
Inductive dict_class : Type := DictCls | ScopeCls.

(** A host value.  Mappings are association lists in insertion order with
    string keys.  [PyCoroutine] is the coroutine object of an [async def],
    carrying what awaiting it produces; [PyInstance] is any other object,
    identified by its class, the class's base and its address.

    A [Token] is the engine's tagged value, a dictionary with the keys
    [type], [value], [number], [list], [bytes], [scope] and [pyobject]; the
    last three keys are optional.  The [scope] key holds a list of
    [Variable_] in the tokens [to_fs] builds and a name-to-token mapping in
    the tokens [to_py] and [execute] read. *)
Inductive pyobj : Type :=
| PyStr (s : string)
| PyInt (n : Z)
| PyFloat (f : PyFloat.t)
| PyBool (b : bool)
| PyNone
| PyList (l : list pyobj)
| PyBytes (b : list Byte.byte)
| PyTuple (l : list pyobj)
| PyDict (cls : dict_class) (items : list (string * pyobj))
| PyException (e : exn)
| PyCoroutine (awaited : result Token)
| PyInstance (cls : string) (base : option string) (addr : nat)
with Token : Type :=
| mkToken (type : string) (value : string) (number : PyFloat.t)
          (list_ : list Token) (bytes_ : option (list Byte.byte))
          (scope : scope_payload) (pyobject : option pyobj)
with scope_payload : Type :=
| ScopeAbsent
| ScopeNone
| ScopeList (vars : list Variable_)
| ScopeDict (entries : list (string * Token))
with Variable_ : Type :=
| mkVariable (name : string) (value : Token).

Definition var_name (v : Variable_) : string :=
  match v with mkVariable name _ => name end.
Definition var_value (v : Variable_) : Token :=
  match v with mkVariable _ value => value end.

Definition tok_type (t : Token) : string :=
  match t with mkToken type _ _ _ _ _ _ => type end.
Definition tok_value (t : Token) : string :=
  match t with mkToken _ value _ _ _ _ _ => value end.
Definition tok_number (t : Token) : PyFloat.t :=
  match t with mkToken _ _ number _ _ _ _ => number end.
Definition tok_list (t : Token) : list Token :=
  match t with mkToken _ _ _ list_ _ _ _ => list_ end.
Definition tok_bytes (t : Token) : option (list Byte.byte) :=
  match t with mkToken _ _ _ _ bytes_ _ _ => bytes_ end.
Definition tok_scope (t : Token) : scope_payload :=
  match t with mkToken _ _ _ _ _ scope _ => scope end.
Definition tok_pyobject (t : Token) : option pyobj :=
  match t with mkToken _ _ _ _ _ _ pyobject => pyobject end.

(** ** Runtime types *)

(** [type(obj)].  [Tclass name base] is a class defined elsewhere. *)
Inductive pytype : Type :=
| Tobject
| Tstr
| Tint
| Tfloat
| Tbool
| TNoneType
| Tlist
| Tbytes
| Ttuple
| Tdict
| TScope
| Texception (c : exc_class)
| Tcoroutine
| Tclass (name : string) (base : option string).

Definition type_of (obj : pyobj) : pytype :=
  match obj with
  | PyStr _ => Tstr
  | PyInt _ => Tint
  | PyFloat _ => Tfloat
  | PyBool _ => Tbool
  | PyNone => TNoneType
  | PyList _ => Tlist
  | PyBytes _ => Tbytes
  | PyTuple _ => Ttuple
  | PyDict DictCls _ => Tdict
  | PyDict ScopeCls _ => TScope
  | PyException e => Texception (exn_class e)
  | PyCoroutine _ => Tcoroutine
  | PyInstance cls base _ => Tclass cls base
  end.

Definition option_string_eqb (a b : option string) : bool :=
  match a, b with
  | Some x, Some y => String.eqb x y
  | None, None => true
  | _, _ => false
  end.

Definition pytype_eqb (a b : pytype) : bool :=
  match a, b with
  | Tobject, Tobject => true
  | Tstr, Tstr => true
  | Tint, Tint => true
  | Tfloat, Tfloat => true
  | Tbool, Tbool => true
  | TNoneType, TNoneType => true
  | Tlist, Tlist => true
  | Tbytes, Tbytes => true
  | Ttuple, Ttuple => true
  | Tdict, Tdict => true
  | TScope, TScope => true
  | Texception c, Texception d => exc_class_eqb c d
  | Tcoroutine, Tcoroutine => true
  | Tclass n b, Tclass m c => String.eqb n m && option_string_eqb b c
  | _, _ => false
  end.

(** The direct base class: [bool] derives from [int] in Python, and the
    module declares [class Scope(dict)] and
    [class FemscriptException(Exception)]. *)
Definition base_of (t : pytype) : option pytype :=
  match t with
  | Tobject => None
  | Tbool => Some Tint
  | TScope => Some Tdict
  | Texception FemscriptException => Some (Texception (OtherException "Exception"))
  | Texception (FemscriptExceptionSubclass _) => Some (Texception FemscriptException)
  | Texception (OtherException "BaseException") => Some Tobject
  | Texception (OtherException "Exception") =>
      Some (Texception (OtherException "BaseException"))
  | Texception _ => Some (Texception (OtherException "Exception"))
  | Tclass _ (Some "str") => Some Tstr
  | Tclass _ (Some "int") => Some Tint
  | Tclass _ (Some "float") => Some Tfloat
  | Tclass _ (Some "list") => Some Tlist
  | Tclass _ (Some "bytes") => Some Tbytes
  | Tclass _ (Some "tuple") => Some Ttuple
  | Tclass _ (Some "dict") => Some Tdict
  | Tclass _ (Some "Scope") => Some TScope
  | _ => Some Tobject
  end.

(** [issubclass(t, u)] with [t] different from [u]: [u] is reached from [t]
    by following base classes (no chain here is longer than four). *)
Fixpoint reaches (fuel : nat) (t u : pytype) : bool :=
  match fuel with
  | O => false
  | S k =>
      match base_of t with
      | None => false
      | Some b => pytype_eqb b u || reaches k b u
      end
  end.

Definition proper_subclass (t u : pytype) : bool := reaches 5 t u.

(** ** The value codec *)

(** The module-level table [types]. *)
Definition types : list (string * pytype) :=
  [ ("Str", Tstr); ("Int", Tfloat); ("Bool", Tbool); ("None", TNoneType);
    ("List", Tlist); ("Bytes", Tbytes); ("Scope", Tdict) ].

Fixpoint dict_get {V : Type} (d : list (pytype * V)) (k : pytype) (default : V) : V :=
  match d with
  | [] => default
  | (k', v) :: d' => if pytype_eqb k' k then v else dict_get d' k default
  end.

(** [{**{value: key for key, value in types.items()}, int: "Int"}] *)
Definition inverted_types : list (pytype * string) :=
  (map (fun kv => (snd kv, fst kv)) types ++ [ (Tint, "Int") ])%list.

(** [fs_type]: a lookup of the exact runtime type. *)
Definition fs_type (obj : pyobj) : string :=
  dict_get inverted_types (type_of obj) "PyObject".

Section MapM.
Context {A B : Type}.
Variable f : A -> result B.

(** A comprehension [[f(x) for x in l]]: left to right, stopping at the
    first exception. *)
Fixpoint mapM (l : list A) : result (list B) :=
  match l with
  | [] => Ok []
  | x :: l' =>
      match f x with
      | Ok y =>
          match mapM l' with
          | Ok ys => Ok (y :: ys)
          | Raise e => Raise e
          end
      | Raise e => Raise e
      end
  end.
End MapM.

(** Storing into a dictionary: an existing key keeps its position, a new
    key goes last. *)
Fixpoint dict_set {V : Type} (d : list (string * V)) (k : string) (v : V)
  : list (string * V) :=
  match d with
  | [] => [ (k, v) ]
  | (k', v') :: d' =>
      if String.eqb k' k then (k', v) :: d' else (k', v') :: dict_set d' k v
  end.

(** The dictionary built from key/value pairs in order. *)
Definition dict_of_items {V : Type} (items : list (string * V)) : list (string * V) :=
  fold_left (fun d kv => dict_set d (fst kv) (snd kv)) items [].

(** [float(obj)] as used by the [Int] and [Bool] rows of [to_fs]. *)
Definition float_ (obj : pyobj) : result PyFloat.t :=
  match obj with
  | PyInt n =>
      match PyFloat.of_int n with
      | Some f => Ok f
      | None => Raise (Exn OverflowError "int too large to convert to float")
      end
  | PyFloat f => Ok f
  | PyBool b => Ok (PyFloat.of_bool b)
  | _ => Raise (Exn TypeError "float() argument must be a string or a real number")
  end.

(** [to_fs]: the token is created with its tag and empty payloads, then
    the row of the tag fills one key; a tag without a row stores the object
    itself under [pyobject]. *)
Fixpoint to_fs (obj : pyobj) : result Token :=
  let _type := fs_type obj in
  if String.eqb _type "Str" then
    match obj with
    | PyStr s => Ok (mkToken _type s PyFloat.zero [] (Some []) ScopeAbsent None)
    | _ => Raise (Exn TypeError "str expected")
    end
  else if String.eqb _type "Int" || String.eqb _type "Bool" then
    number <- float_ obj ;;
    Ok (mkToken _type "" number [] (Some []) ScopeAbsent None)
  else if String.eqb _type "List" then
    match obj with
    | PyList l =>
        list_ <- mapM to_fs l ;;
        Ok (mkToken _type "" PyFloat.zero list_ (Some []) ScopeAbsent None)
    | _ => Raise (Exn TypeError "object is not iterable")
    end
  else if String.eqb _type "Bytes" then
    match obj with
    | PyBytes b => Ok (mkToken _type "" PyFloat.zero [] (Some b) ScopeAbsent None)
    | _ => Raise (Exn TypeError "bytes expected")
    end
  else if String.eqb _type "None" then
    Ok (mkToken "None" "" PyFloat.zero [] (Some []) ScopeAbsent None)
  else if String.eqb _type "Scope" then
    match obj with
    | PyDict _ items =>
        scope <- mapM (fun kv => t <- to_fs (snd kv) ;; Ok (mkVariable (fst kv) t)) items ;;
        Ok (mkToken _type "" PyFloat.zero [] (Some []) (ScopeList scope) None)
    | _ => Raise (Exn AttributeError "object has no attribute 'items'")
    end
  else
    Ok (mkToken _type "" PyFloat.zero [] (Some []) ScopeAbsent (Some obj)).

(** [needle in haystack] for strings. *)
Fixpoint str_contains (needle haystack : string) : bool :=
  String.prefix needle haystack ||
  match haystack with
  | EmptyString => false
  | String _ rest => str_contains needle rest
  end.

(** [to_py]: an [Error] tag yields an exception object, returned and not
    raised; otherwise the row of the tag decodes the payload, and a tag
    without a row decodes like [Str]. *)
Fixpoint to_py (token : Token) : result pyobj :=
  match token with
  | mkToken type value number list_ bytes_ scope pyobject =>
      if str_contains "Error" type then
        Ok (PyException (Exn FemscriptException value))
      else if String.eqb type "Str" then
        Ok (PyStr value)
      else if String.eqb type "Int" then
        Ok (if negb (PyFloat.is_integer number) then PyFloat number
            else PyInt (PyFloat.floor number))
      else if String.eqb type "Bool" then
        Ok (PyBool (PyFloat.truth number))
      else if String.eqb type "List" then
        l <- mapM to_py list_ ;;
        Ok (PyList l)
      else if String.eqb type "Bytes" then
        match bytes_ with
        | Some b => Ok (PyBytes b)
        | None => Raise (Exn KeyError "'bytes'")
        end
      else if String.eqb type "None" then
        Ok PyNone
      else if String.eqb type "Scope" then
        match scope with
        | ScopeAbsent => Ok (PyDict ScopeCls [])
        | ScopeDict entries =>
            items <- mapM (fun kv => v <- to_py (snd kv) ;; Ok (fst kv, v)) entries ;;
            Ok (PyDict ScopeCls (dict_of_items items))
        | ScopeList _ =>
            Raise (Exn AttributeError "'list' object has no attribute 'items'")
        | ScopeNone =>
            Raise (Exn AttributeError "'NoneType' object has no attribute 'items'")
        end
      else if String.eqb type "PyObject" then
        match pyobject with
        | Some obj => Ok obj
        | None => Raise (Exn KeyError "'pyobject'")
        end
      else
        Ok (PyStr value)
  end.

(** [error]: the token has no [bytes] key. *)
Definition error (msg : string) : Token :=
  mkToken "Error" ("Error: " ++ msg) PyFloat.zero [] None ScopeAbsent None.

(** [var(name, value)] and [var(name, variables=...)] *)
Definition var (name : string) (value : pyobj) (variables : option (list Variable_))
  : result Variable_ :=
  match variables with
  | Some vs =>
      token <- to_fs (PyDict DictCls []) ;;
      match token with
      | mkToken ty v n l b (ScopeList sc) p =>
          Ok (mkVariable name (mkToken ty v n l b (ScopeList (sc ++ vs)%list) p))
      | _ => Raise (Exn KeyError "'scope'")
      end
  | None => t <- to_fs value ;; Ok (mkVariable name t)
  end.

(** ** Rendering of [Scope] *)





Section MapS.
Context {A B : Type}.
Variable f : A -> Z -> result B * Z.

End MapS.

(** The class attribute [Scope.format_depth] as the class body sets it. *)
Definition format_depth_init : Z := 0.

Section Render.

(** [repr] of the values that hold no other value (strings, numbers,
    exceptions, other objects): Python's own, possibly raising. *)
Variable repr_leaf : pyobj -> result string.



End Render.

(** ** The function adapter *)

(** A host callable: positional arguments and keyword arguments in, a
    value or an exception out.  For an [async def] callable, [call] is what
    awaiting the call produces. *)
Definition py_function : Type := list pyobj -> list (string * pyobj) -> result pyobj.

Record callable : Type := mkCallable {
  __name__ : string;
  iscoroutinefunction : bool;
  call : py_function
}.

(** The [args] parameter of an adapter, annotated [list[Token] | Token]:
    a tuple of tokens, a list of tokens, or one token. *)
Inductive arguments : Type :=
| ArgsTuple (ts : list Token)
| ArgsList (ts : list Token)
| ArgsToken (t : Token).

(** [**obj] in a call. *)
Definition as_kwargs (obj : pyobj) : result (list (string * pyobj)) :=
  match obj with
  | PyDict _ items => Ok items
  | _ => Raise (Exn TypeError "argument after ** must be a mapping")
  end.

(** The body under [try] of both wrappers.  Only a tuple skips the test
    [args["type"] == "Scope"], which fails on a list.  Iterating a single
    token, a dictionary, yields its keys, and [to_py] of the first key
    fails on [token["type"]]. *)
Definition invoke (func : py_function) (with_name : bool) (name : string)
  (args : arguments) : result Token :=
  let lead := if with_name then [PyStr name] else [] in
  match args with
  | ArgsToken t =>
      if String.eqb (tok_type t) "Scope" then
        obj <- to_py t ;;
        kwargs <- as_kwargs obj ;;
        r <- func lead kwargs ;;
        to_fs r
      else
        Raise (Exn TypeError "string indices must be integers, not 'str'")
  | ArgsList _ =>
      Raise (Exn TypeError "list indices must be integers or slices, not str")
  | ArgsTuple ts =>
      objs <- mapM to_py ts ;;
      r <- func (lead ++ objs)%list [] ;;
      to_fs r
  end.

(** [try: ... except FemscriptException as exc: return self.error(str(exc))]:
    the clause catches the instances of [FemscriptException], those of its
    subclasses included. *)
Definition except_FemscriptException (r : result Token) : result Token :=
  match r with
  | Raise e => if isinstance_FemscriptException e then Ok (error (exn_msg e)) else r
  | _ => r
  end.

Definition adapter : Type := string -> arguments -> list Variable_ -> result Token.

(** The wrapper of a plain callable. *)
Definition wrapper_sync (func : py_function) (with_name : bool) : adapter :=
  fun name args scope => except_FemscriptException (invoke func with_name name args).

(** The wrapper of an [async def] callable: the coroutine of the inner
    [async def wrapper()], encoded by [to_fs]. *)
Definition wrapper_async (func : py_function) (with_name : bool) : adapter :=
  fun name args scope =>
    to_fs (PyCoroutine (except_FemscriptException (invoke func with_name name args))).

Record Function : Type := mkFunction { fn_name : string; fn_func : adapter }.

(** ** The script instance *)

Inductive AST : Type :=
| mkAST (type : string) (token : Token) (children : list AST).

(** An entry of [self._modules]: the source text given to the constructor,
    or the program [generate_ast] returned. *)
Inductive module_entry : Type :=
| Source (code : string)
| Program (ast : list AST).

Record Femscript : Type := mkFemscript {
  tokens : option (list Token);
  ast : option (list AST);
  _variables : list Variable_;
  _functions : list Function;
  _modules : list (string * module_entry)
}.

(** [x or default] for an optional argument. *)
Definition or_default {A : Type} (x : option A) (default : A) : A :=
  match x with
  | Some a => a
  | None => default
  end.

(** [self._variables] after [add_variable]: the loop looks for the first
    entry of the same name; [for ... else] appends when there is none. *)
Fixpoint find_name (name : string) (vars : list Variable_) (index : nat) : option nat :=
  match vars with
  | [] => None
  | _variable :: rest =>
      if String.eqb (var_name _variable) name then Some index
      else find_name name rest (S index)
  end.

(** [l[index] = x] *)
Definition list_assign {A : Type} (l : list A) (index : nat) (x : A) : list A :=
  (firstn index l ++ x :: skipn (S index) l)%list.

Definition add_variable (self : Femscript) (variable : Variable_) : Femscript :=
  let vars :=
    match find_name (var_name variable) (_variables self) 0 with
    | None => (_variables self ++ [variable])%list
    | Some index => list_assign (_variables self) index variable
    end in
  mkFemscript (tokens self) (ast self) vars (_functions self) (_modules self).

(** The [variables] property. *)
Definition variables (self : Femscript) : result (list (string * pyobj)) :=
  items <- mapM (fun item => v <- to_py (var_value item) ;; Ok (var_name item, v))
                (_variables self) ;;
  Ok (dict_of_items items).

(** [wrap_function(func, func_name=..., with_name=...)]: the wrapper is
    appended to [self._functions] and returned. *)
Definition wrap_function (self : Femscript) (func : callable)
  (func_name : option string) (with_name : bool) : Femscript * adapter :=
  let wrapper :=
    if iscoroutinefunction func then wrapper_async (call func) with_name
    else wrapper_sync (call func) with_name in
  let name :=
    match func_name with
    | Some (String c s) => String c s
    | _ => __name__ func
    end in
  (mkFemscript (tokens self) (ast self) (_variables self)
     (_functions self ++ [mkFunction name wrapper])%list (_modules self),
   wrapper).

Section Engine.

(** The native engine, imported from the extension module. *)
Variable generate_tokens : string -> result (list Token).
Variable generate_ast : list Token -> result (list AST).
Variable execute_ast :
  list AST -> list Variable_ -> list Function -> list (string * module_entry) ->
  bool -> result (Token * list (string * Token)).

(** [generate_tokens(self._modules[module])]: the native tokenizer takes a
    string; handed a program, a list, its argument conversion fails. *)
Definition tokenize_entry (entry : module_entry) : result (list Token) :=
  match entry with
  | Source code => generate_tokens code
  | Program _ =>
      Raise (Exn TypeError "argument 'code': 'list' object cannot be converted to 'PyString'")
  end.

(** The loop of [parse] over the names of [self._modules], each entry
    replaced in place; it stops at the first exception, keeping the entries
    already replaced. *)
Fixpoint reparse_modules (names : list string) (modules : list (string * module_entry))
  : result unit * list (string * module_entry) :=
  match names with
  | [] => (Ok tt, modules)
  | module :: rest =>
      match find (fun kv => String.eqb (fst kv) module) modules with
      | None => (Raise (Exn KeyError module), modules)
      | Some (_, entry) =>
          match tokenize_entry entry with
          | Raise e => (Raise e, modules)
          | Ok toks =>
              match generate_ast toks with
              | Raise e => (Raise e, modules)
              | Ok prog => reparse_modules rest (dict_set modules module (Program prog))
              end
          end
      end
  end.

(** [parse(code)] *)
Definition parse (self : Femscript) (code : option string) : result unit * Femscript :=
  match generate_tokens (or_default code "") with
  | Raise e => (Raise e, self)
  | Ok toks =>
      let self1 := mkFemscript (Some toks) (ast self) (_variables self)
                     (_functions self) (_modules self) in
      match generate_ast toks with
      | Raise e => (Raise e, self1)
      | Ok prog =>
          let '(r, modules) := reparse_modules (map fst (_modules self)) (_modules self) in
          (r, mkFemscript (Some toks) (Some prog) (_variables self)
                (_functions self) modules)
      end
  end.

(** [Femscript(code, variables=..., functions=..., modules=...)] *)
Definition init (code : option string) (variables : option (list Variable_))
  (functions : option (list Function)) (modules : option (list (string * string)))
  : result unit * Femscript :=
  let self :=
    mkFemscript None None (or_default variables []) (or_default functions [])
      (map (fun kv => (fst kv, Source (snd kv))) (or_default modules [])) in
  match code with
  | Some c => parse self (Some c)
  | None => (Ok tt, self)
  end.

(** [add_module(name, code)] *)
Definition add_module (self : Femscript) (name code : string) : result unit * Femscript :=
  match generate_tokens code with
  | Raise e => (Raise e, self)
  | Ok toks =>
      match generate_ast toks with
      | Raise e => (Raise e, self)
      | Ok prog =>
          (Ok tt, mkFemscript (tokens self) (ast self) (_variables self)
                    (_functions self) (dict_set (_modules self) name (Program prog)))
      end
  end.

(** [execute(debug=...)]: the binding list becomes the list of the pairs
    of the scope the engine returned, then the result is decoded. *)
Definition execute (self : Femscript) (debug : bool) : result pyobj * Femscript :=
  match ast self with
  | None => (Raise (Exn AttributeError "'Femscript' object has no attribute 'ast'"), self)
  | Some prog =>
      match execute_ast prog (_variables self) (_functions self) (_modules self) debug with
      | Raise e => (Raise e, self)
      | Ok (result, scope) =>
          let self' :=
            mkFemscript (tokens self) (ast self)
              (map (fun kv => mkVariable (fst kv) (snd kv)) scope)
              (_functions self) (_modules self) in
          (to_py result, self')
      end
  end.

End Engine.

(** ** Predicates used in the statements *)

(** The eight tags [fs_type] can return. *)
Definition tags : list string :=
  [ "Str"; "Int"; "Bool"; "None"; "List"; "Bytes"; "Scope"; "PyObject" ].

(** The runtime types that are keys of the table [fs_type] looks up. *)
Definition registered (t : pytype) : bool :=
  existsb (pytype_eqb t) (map fst inverted_types).

(** [2 ** 53]: up to it every integer is a double. *)
Definition two53 : Z := 9007199254740992.

(** The values of the round trip: strings, integers up to [two53] in
    magnitude, booleans, [None], byte strings, and lists of such values. *)
Fixpoint plain (v : pyobj) : bool :=
  match v with
  | PyStr _ => true
  | PyInt n => Z.abs n <=? two53
  | PyBool _ => true
  | PyNone => true
  | PyBytes _ => true
  | PyList l => forallb plain l
  | _ => false
  end.

(** [call_args with_name name args pos kw]: the adapter, given [args],
    calls the wrapped callable with the positional arguments [pos] and the
    keyword arguments [kw]: a single [Scope] token is decoded and its
    entries go by keyword; the tokens of a tuple are decoded and go by
    position. *)
Inductive call_args (with_name : bool) (name : string)
  : arguments -> list pyobj -> list (string * pyobj) -> Prop :=
| call_named (t : Token) (cls : dict_class) (kw : list (string * pyobj)) :
    tok_type t = "Scope" ->
    to_py t = Ok (PyDict cls kw) ->
    call_args with_name name (ArgsToken t)
      (if with_name then [PyStr name] else []) kw
| call_positional (ts : list Token) (objs : list pyobj) :
    mapM to_py ts = Ok objs ->
    call_args with_name name (ArgsTuple ts)
      ((if with_name then [PyStr name] else []) ++ objs)%list [].

(** How both wrappers finish with what the callable did. *)
Definition finish (r : result pyobj) : result Token :=
  except_FemscriptException (v <- r ;; to_fs v).

(** [adapter_returns func r outcome]: the call of the adapter of [func]
    came back as [r] and its effective return is [outcome].  For a plain
    callable the two are the same; for an [async def] callable [r] is the
    [PyObject] token of the coroutine and [outcome] is what awaiting that
    coroutine produces. *)
Definition adapter_returns (func : callable) (r outcome : result Token) : Prop :=
  if iscoroutinefunction func then
    r = Ok (mkToken "PyObject" "" PyFloat.zero [] (Some []) ScopeAbsent
              (Some (PyCoroutine outcome)))
  else r = outcome.

(** Decoding the entries of a [scope] mapping, in order. *)
Definition decode_entries (entries : list (string * Token))
  : result (list (string * pyobj)) :=
  mapM (fun kv => v <- to_py (snd kv) ;; Ok (fst kv, v)) entries.

(** The token the engine passes for the integer [n] of a script. *)
Definition int_token (n : Z) : Token :=
  mkToken "Int" "" (or_default (PyFloat.of_int n) PyFloat.zero) [] (Some [])
    ScopeAbsent None.

(** A callable that returns the arguments it was called with, as the
    tuple [(positional, keywords)]. *)
Definition echo : py_function :=
  fun pos kw => Ok (PyTuple [PyTuple pos; PyDict DictCls kw]).





Definition is_zero_float (f : PyFloat.t) : bool :=
  match f with
  | S754_zero false => true
  | _ => false
  end.

Definition is_nil {A : Type} (l : list A) : bool :=
  match l with
  | [] => true
  | _ => false
  end.

(** The shape of the tokens [to_fs] builds: the [bytes] key is present;
    only the payload of the tag may differ from its default; [scope] is a
    list of variables exactly under [Scope] and [pyobject] is present
    exactly under [PyObject], holding a value of that tag; and the tokens
    inside are of the same shape. *)
Fixpoint to_fs_shaped (t : Token) : bool :=
  match t with
  | mkToken type value number list_ bytes_ scope pyobject =>
      existsb (String.eqb type) tags &&
      (String.eqb value "" || String.eqb type "Str") &&
      (is_zero_float number || String.eqb type "Int" || String.eqb type "Bool") &&
      (is_nil list_ || String.eqb type "List") &&
      forallb to_fs_shaped list_ &&
      match bytes_ with
      | Some b => is_nil b || String.eqb type "Bytes"
      | None => false
      end &&
      match scope with
      | ScopeAbsent => negb (String.eqb type "Scope")
      | ScopeList vars =>
          String.eqb type "Scope" &&
          forallb (fun v => match v with mkVariable _ value => to_fs_shaped value end) vars
      | _ => false
      end &&
      match pyobject with
      | None => negb (String.eqb type "PyObject")
      | Some obj => String.eqb type "PyObject" && String.eqb (fs_type obj) "PyObject"
      end
  end.

(** The tokens [to_py] decodes: under [List] the elements are such
    tokens, under [Bytes] and [PyObject] the key is present, under [Scope]
    the [scope] key is absent or a mapping to such tokens. *)
Fixpoint decodable (t : Token) : bool :=
  match t with
  | mkToken type value number list_ bytes_ scope pyobject =>
      if str_contains "Error" type then true
      else if String.eqb type "List" then forallb decodable list_
      else if String.eqb type "Bytes" then
        match bytes_ with Some _ => true | None => false end
      else if String.eqb type "Scope" then
        match scope with
        | ScopeAbsent => true
        | ScopeDict entries => forallb (fun kv => decodable (snd kv)) entries
        | _ => false
        end
      else if String.eqb type "PyObject" then
        match pyobject with Some _ => true | None => false end
      else true
  end.

(** The exception of [float(n)] for an [int] beyond the doubles. *)
Definition overflow : exn := Exn OverflowError "int too large to convert to float".

(** A property of the tokens a [scope] payload holds. *)
Definition scope_all (P : Token -> Prop) (scope : scope_payload) : Prop :=
  match scope with
  | ScopeList vars => Forall (fun v => P (var_value v)) vars
  | ScopeDict entries => Forall (fun kv => P (snd kv)) entries
  | _ => True
  end.

(** The names of a [scope] mapping. *)
Definition scope_names (scope : scope_payload) : list string :=
  match scope with
  | ScopeDict entries => map fst entries
  | _ => []
  end.

(** The binding list with [variable] put under its name: in place of the
    first entry of that name, or last. *)
Fixpoint upsert (vars : list Variable_) (variable : Variable_) : list Variable_ :=
  match vars with
  | [] => [variable]
  | x :: rest =>
      if String.eqb (var_name x) (var_name variable) then variable :: rest
      else x :: upsert rest variable
  end.

(** Decoding one binding, as the [variables] property does. *)
Definition decode_variable (item : Variable_) : result (string * pyobj) :=
  v <- to_py (var_value item) ;; Ok (var_name item, v).

(** An entry of the module table that is still source text. *)
Definition is_source (kv : string * module_entry) : bool :=
  match snd kv with
  | Source _ => true
  | Program _ => false
  end.

(** The exception of the native tokenizer handed a program. *)
Definition tokenizer_type_error : exn :=
  Exn TypeError "argument 'code': 'list' object cannot be converted to 'PyString'".

(** * Properties *)

(** ** [fs_type] *)

Lemma fs_type_in_tags (obj : pyobj) : In (fs_type obj) tags.
Proof.
  destruct obj as [s|n|f|b| |l|b|l|cls items|e|c|cls base addr];
    try destruct cls; unfold tags; cbn; tauto.
Qed.

Lemma fs_type_unregistered (obj : pyobj) :
  registered (type_of obj) = false -> fs_type obj = "PyObject".
Proof.
  destruct obj as [s|n|f|b| |l|b|l|cls items|e|c|cls base addr];
    try destruct cls; cbn; intros H; try discriminate H; reflexivity.
Qed.

(** C7: [fs_type] gives every host value exactly one tag, one of the
    eight; a value whose runtime type is not a key of the table gets
    [PyObject]; floats and integers both get [Int]. *)
Theorem fs_type_total :
  (forall obj, exists! tag, fs_type obj = tag /\ In tag tags) /\
  (forall obj, registered (type_of obj) = false -> fs_type obj = "PyObject") /\
  (forall f n, fs_type (PyFloat f) = "Int" /\ fs_type (PyInt n) = "Int").
Proof.
  split; [| split].
  - intros obj. exists (fs_type obj). split.
    + split; [reflexivity | apply fs_type_in_tags].
    + intros tag [H _]. exact H.
  - exact fs_type_unregistered.
  - intros f n. split; reflexivity.
Qed.

Lemma fs_type_total_witness :
  registered (type_of (PyTuple [PyInt 1])) = false /\
  fs_type (PyTuple [PyInt 1]) = "PyObject".
Proof.
  split; [reflexivity |].
  apply (proj1 (proj2 fs_type_total) (PyTuple [PyInt 1])). reflexivity.
Defined.

(** ** [error] *)

Lemma str_contains_Error_prefix (s : string) : str_contains "Error" ("Error" ++ s) = true.
Proof. destruct s; reflexivity. Qed.

(** C6: [error m] is tagged [Error], carries ["Error: " ++ m], a zero
    number and an empty list; [to_py] turns it into an exception object
    with that message, returned as a value; in particular for ["boom"]. *)
Theorem error_token (m : string) :
  tok_type (error m) = "Error" /\
  tok_value (error m) = "Error: " ++ m /\
  tok_number (error m) = PyFloat.zero /\
  tok_list (error m) = [] /\
  to_py (error m) = Ok (PyException (Exn FemscriptException ("Error: " ++ m))) /\
  to_py (error "boom") = Ok (PyException (Exn FemscriptException "Error: boom")).
Proof.
  repeat split; reflexivity.
Qed.

(** ** [add_variable] *)

Lemma find_name_None (name : string) (vars : list Variable_) (k : nat) :
  find_name name vars k = None <-> (forall v, In v vars -> var_name v <> name).
Proof.
  revert k. induction vars as [|v vars IH]; intros k; cbn.
  - split; [intros _ v [] | reflexivity].
  - destruct (String.eqb_spec (var_name v) name) as [E|N].
    + split; [discriminate |]. intros H. exfalso. apply (H v); [now left | exact E].
    + rewrite IH. split.
      * intros H w [<-|Hw]; [exact N | now apply H].
      * intros H w Hw. apply H. now right.
Qed.

Lemma find_name_Some (name : string) (vars : list Variable_) (k index : nat) :
  find_name name vars k = Some index ->
  exists i old,
    index = (k + i)%nat /\ nth_error vars i = Some old /\ var_name old = name /\
    (forall j w, (j < i)%nat -> nth_error vars j = Some w -> var_name w <> name).
Proof.
  revert k. induction vars as [|v vars IH]; intros k; cbn; [discriminate |].
  destruct (String.eqb_spec (var_name v) name) as [E|N].
  - intros [= <-]. exists 0%nat, v. split; [lia |]. split; [reflexivity |].
    split; [exact E |]. intros j w Hj. inversion Hj.
  - intros H. destruct (IH _ H) as (i & old & -> & Hn & Ho & Hfirst).
    exists (S i), old. split; [lia |]. split; [exact Hn |]. split; [exact Ho |].
    intros [|j] w Hj Hw; cbn in Hw.
    + now injection Hw as <-.
    + apply (Hfirst j); [lia | exact Hw].
Qed.

Lemma nth_error_list_assign {A : Type} (l : list A) (i : nat) (x old : A) :
  nth_error l i = Some old ->
  List.length (list_assign l i x) = List.length l /\
  nth_error (list_assign l i x) i = Some x /\
  (forall j, j <> i -> nth_error (list_assign l i x) j = nth_error l j).
Proof.
  unfold list_assign. revert i. induction l as [|a l IH]; intros [|i] H; cbn in *;
    try discriminate.
  - repeat split; auto. intros [|j] Hj; [congruence | reflexivity].
  - destruct (IH i H) as (Hlen & Hi & Hrest). repeat split.
    + now rewrite Hlen.
    + exact Hi.
    + intros [|j] Hj; [reflexivity |]. cbn. apply Hrest. congruence.
Qed.

(** C5: [add_variable] replaces the value at the index of the first entry
    of the same name, leaving the length and every other entry as they
    were; with no such entry it appends.  From [[a; b; c]], setting [b]
    gives [[a; b'; c]] and then setting [d] gives [[a; b'; c; d]]. *)
Theorem add_variable_spec (self : Femscript) (variable : Variable_) :
  let vars := _variables self in
  let vars' := _variables (add_variable self variable) in
  ((exists v, In v vars /\ var_name v = var_name variable) ->
   exists index old,
     nth_error vars index = Some old /\ var_name old = var_name variable /\
     (forall j w, (j < index)%nat -> nth_error vars j = Some w ->
                  var_name w <> var_name variable) /\
     List.length vars' = List.length vars /\
     nth_error vars' index = Some variable /\
     (forall j, j <> index -> nth_error vars' j = nth_error vars j)) /\
  ((forall v, In v vars -> var_name v <> var_name variable) ->
   vars' = (vars ++ [variable])%list) /\
  (forall toks prog fns mods va vb vc vb' vd,
     let s0 := mkFemscript toks prog
                 [mkVariable "a" va; mkVariable "b" vb; mkVariable "c" vc] fns mods in
     let s1 := add_variable s0 (mkVariable "b" vb') in
     _variables s1 = [mkVariable "a" va; mkVariable "b" vb'; mkVariable "c" vc] /\
     _variables (add_variable s1 (mkVariable "d" vd)) =
       [mkVariable "a" va; mkVariable "b" vb'; mkVariable "c" vc; mkVariable "d" vd]).
Proof.
  cbn zeta. split; [| split].
  - intros (v & Hin & Hname). unfold add_variable. cbn [_variables].
    destruct (find_name (var_name variable) (_variables self) 0) as [index|] eqn:F.
    + destruct (find_name_Some _ _ _ _ F) as (i & old & -> & Hn & Ho & Hfirst).
      cbn [Nat.add]. exists i, old.
      destruct (nth_error_list_assign _ _ variable _ Hn) as (Hlen & Hi & Hrest).
      repeat split; assumption.
    + exfalso. apply (proj1 (find_name_None _ _ _) F v Hin Hname).
  - intros H. unfold add_variable. cbn [_variables].
    now rewrite (proj2 (find_name_None _ _ 0%nat) H).
  - intros. split; reflexivity.
Qed.

Lemma add_variable_spec_witness :
  let tok := mkToken "None" "" PyFloat.zero [] (Some []) ScopeAbsent None in
  let self := mkFemscript None None [mkVariable "a" tok; mkVariable "b" tok] [] [] in
  _variables (add_variable self (mkVariable "b" (error "x")))
    = [mkVariable "a" tok; mkVariable "b" (error "x")] /\
  _variables (add_variable self (mkVariable "z" tok))
    = [mkVariable "a" tok; mkVariable "b" tok; mkVariable "z" tok].
Proof.
  cbn zeta.
  set (tok := mkToken "None" "" PyFloat.zero [] (Some []) ScopeAbsent None).
  set (self := mkFemscript None None [mkVariable "a" tok; mkVariable "b" tok] [] []).
  split.
  - destruct (proj1 (add_variable_spec self (mkVariable "b" (error "x"))))
      as (index & old & _).
    + exists (mkVariable "b" tok). split; [right; left; reflexivity | reflexivity].
    + reflexivity.
  - apply (proj1 (proj2 (add_variable_spec self (mkVariable "z" tok)))).
    intros v [<-|[<-|[]]]; cbn; discriminate.
Defined.

(** ** Floats of small integers *)

Lemma iter_xO_spec (p k : positive) : Zpos (Pos.iter xO p k) = Zpos p * 2 ^ Zpos k.
Proof.
  induction k using Pos.peano_ind.
  - cbn. lia.
  - rewrite Pos.iter_succ, Pos2Z.inj_xO, IHk, Pos2Z.inj_succ, Z.pow_succ_r by lia. lia.
Qed.

Lemma digits2_iter_xO (p k : positive) :
  digits2_pos (Pos.iter xO p k) = (digits2_pos p + k)%positive.
Proof.
  induction k using Pos.peano_ind.
  - cbn. lia.
  - rewrite Pos.iter_succ. cbn. rewrite IHk. lia.
Qed.

Lemma digits2_pos_le (p : positive) (k : Z) :
  Zpos p < 2 ^ k -> 0 <= k -> Zpos (digits2_pos p) <= k.
Proof.
  revert k.
  assert (pos : forall q k, Zpos q < 2 ^ k -> 0 <= k -> 0 < k).
  { intros q k H Hk. destruct (Z.eq_dec k 0) as [->|]; [cbn in H; lia | lia]. }
  induction p as [p IH|p IH|]; intros k H Hk; cbn [digits2_pos];
    pose proof (pos _ _ H Hk) as Hpos; [| | lia].
  - rewrite Pos2Z.inj_succ. specialize (IH (k - 1)).
    replace k with (Z.succ (k - 1)) in H by lia. rewrite Z.pow_succ_r in H by lia.
    assert (Zpos p < 2 ^ (k - 1)) by lia. lia.
  - rewrite Pos2Z.inj_succ. specialize (IH (k - 1)).
    replace k with (Z.succ (k - 1)) in H by lia. rewrite Z.pow_succ_r in H by lia.
    assert (Zpos p < 2 ^ (k - 1)) by lia. lia.
Qed.

Lemma binary_round_aux_canonical (s : bool) (m : positive) (e : Z) :
  Zpos (digits2_pos m) = 53 -> -1074 <= e <= 971 ->
  binary_round_aux 53 1024 s (Zpos m) e loc_Exact = S754_finite s m e.
Proof.
  intros Hd He. unfold binary_round_aux, shr_fexp. cbn [Zdigits2 shr_record_of_loc].
  rewrite Hd.
  assert (F : fexp 53 1024 (53 + e) - e = 0) by (unfold fexp, emin; lia).
  rewrite F. cbn [shr shr_m loc_of_shr_record round_nearest_even Zdigits2].
  rewrite Hd, F. cbn [shr shr_m shr_record_of_loc].
  destruct (Z.leb_spec e (1024 - 53)); [reflexivity | lia].
Qed.

Lemma binary_round_small (s : bool) (p : positive) :
  Zpos p < 2 ^ 53 ->
  exists m e, binary_round 53 1024 s p 0 = S754_finite s m e /\ -52 <= e <= 0 /\
              Zpos m = Zpos p * 2 ^ (- e).
Proof.
  intros H. pose proof (digits2_pos_le p 53 H ltac:(lia)) as Hd.
  assert (1 <= Zpos (digits2_pos p)) by lia.
  unfold binary_round. rewrite Z.add_0_r.
  replace (fexp 53 1024 (Zpos (digits2_pos p))) with (Zpos (digits2_pos p) - 53)
    by (unfold fexp, emin; lia).
  unfold shl_align. rewrite Z.sub_0_r.
  destruct (Z.pos (digits2_pos p) - 53) as [|k|k] eqn:E; try lia.
  - exists p, 0. rewrite binary_round_aux_canonical by lia.
    split; [reflexivity |]. split; lia.
  - exists (Pos.iter xO p k), (Z.pos (digits2_pos p) - 53).
    rewrite E, binary_round_aux_canonical.
    + split; [reflexivity |]. split; [lia |]. now rewrite iter_xO_spec.
    + rewrite digits2_iter_xO. lia.
    + lia.
Qed.

Lemma finite_integral (s : bool) (m p : positive) (e : Z) :
  -52 <= e <= 0 -> Zpos m = Zpos p * 2 ^ (- e) ->
  PyFloat.is_integer (S754_finite s m e) = true /\
  PyFloat.floor (S754_finite s m e) = cond_Zopp s (Zpos p).
Proof.
  intros He Hm. unfold PyFloat.is_integer, PyFloat.floor. split.
  - destruct (Z.leb_spec 0 e); [reflexivity |].
    rewrite Z.land_ones, Hm, Z.mod_mul by lia. reflexivity.
  - rewrite <- (Z.opp_involutive e) at 1. rewrite Z.shiftl_opp_r, Z.shiftr_div_pow2 by lia.
    destruct s; cbn [cond_Zopp].
    + change (Z.neg m) with (- Z.pos m). rewrite Hm, <- Z.mul_opp_l, Z.div_mul by lia. reflexivity.
    + rewrite Hm, Z.div_mul by lia. reflexivity.
Qed.

(** [float(n)] is exact up to [two53]. *)
Lemma of_int_exact (n : Z) :
  Z.abs n <= two53 ->
  exists f, PyFloat.of_int n = Some f /\ PyFloat.is_integer f = true /\ PyFloat.floor f = n.
Proof.
  intros H. unfold two53 in H.
  destruct (Z.eq_dec (Z.abs n) 9007199254740992) as [E|N].
  - assert (n = 9007199254740992 \/ n = - 9007199254740992) as [-> | ->] by lia;
      eexists; (split; [vm_compute; reflexivity | split; vm_compute; reflexivity]).
  - unfold PyFloat.of_int, binary_normalize, PyFloat.prec, PyFloat.emax.
    destruct n as [|p|p].
    + eexists. split; [reflexivity | split; reflexivity].
    + destruct (binary_round_small false p) as (m & e & -> & He & Hm); [cbn in *; lia |].
      exists (S754_finite false m e). split; [reflexivity |].
      exact (finite_integral false m p e He Hm).
    + destruct (binary_round_small true p) as (m & e & -> & He & Hm); [cbn in *; lia |].
      exists (S754_finite true m e). split; [reflexivity |].
      exact (finite_integral true m p e He Hm).
Qed.

(** ** Round trip through the codec *)

Lemma roundtrip_plain :
  forall v, plain v = true -> exists t, to_fs v = Ok t /\ to_py t = Ok v.
Proof.
  fix IH 1.
  intros [s|n|f|b| |l|b|l|cls items|e|c|cls base addr] Hp; cbn [plain] in Hp;
    try discriminate Hp.
  - eexists. split; reflexivity.
  - apply Z.leb_le in Hp. destruct (of_int_exact n Hp) as (f & Hf & Hi & Hfl).
    exists (mkToken "Int" "" f [] (Some []) ScopeAbsent None). split.
    + change (to_fs (PyInt n)) with
        (number <- float_ (PyInt n) ;; Ok (mkToken "Int" "" number [] (Some []) ScopeAbsent None)).
      unfold float_. rewrite Hf. reflexivity.
    + change (to_py (mkToken "Int" "" f [] (Some []) ScopeAbsent None)) with
        (Ok (if negb (PyFloat.is_integer f) then PyFloat f else PyInt (PyFloat.floor f))).
      rewrite Hi, Hfl. reflexivity.
  - destruct b; eexists; (split; reflexivity).
  - eexists. split; reflexivity.
  - assert (L : exists ts, mapM to_fs l = Ok ts /\ mapM to_py ts = Ok l).
    { induction l as [|x l IHl].
      - exists []. split; reflexivity.
      - cbn [forallb] in Hp. apply andb_true_iff in Hp as [Hx Hl].
        destruct (IH x Hx) as (t & Ht & Ht').
        destruct (IHl Hl) as (ts & Hts & Hts').
        exists (t :: ts). cbn [mapM]. rewrite Ht, Hts, Ht', Hts'. split; reflexivity. }
    destruct L as (ts & Hts & Hts').
    exists (mkToken "List" "" PyFloat.zero ts (Some []) ScopeAbsent None). split.
    + change (to_fs (PyList l)) with
        (list_ <- mapM to_fs l ;;
         Ok (mkToken "List" "" PyFloat.zero list_ (Some []) ScopeAbsent None)).
      rewrite Hts. reflexivity.
    + change (to_py (mkToken "List" "" PyFloat.zero ts (Some []) ScopeAbsent None)) with
        (l0 <- mapM to_py ts ;; Ok (PyList l0)).
      rewrite Hts'. reflexivity.
  - eexists. split; reflexivity.
Qed.

Lemma roundtrip_float (f : PyFloat.t) :
  exists t, to_fs (PyFloat f) = Ok t /\
            to_py t = Ok (if PyFloat.is_integer f then PyInt (PyFloat.floor f)
                          else PyFloat f).
Proof.
  eexists. split; [reflexivity |].
  cbn. destruct (PyFloat.is_integer f); reflexivity.
Qed.

Lemma to_fs_PyObject (v : pyobj) :
  fs_type v = "PyObject" ->
  to_fs v = Ok (mkToken "PyObject" "" PyFloat.zero [] (Some []) ScopeAbsent (Some v)).
Proof.
  destruct v as [s|n|f|b| |l|b|l|cls items|e|c|cls base addr];
    try destruct cls; cbn [fs_type type_of dict_get inverted_types types map app
                           fst snd pytype_eqb]; intros H; try discriminate H;
    reflexivity.
Qed.

(** What [to_py] makes of the token [to_fs] builds for a mapping. *)
Lemma to_py_to_fs_mapping (items : list (string * pyobj)) (t : Token) :
  to_fs (PyDict DictCls items) = Ok t ->
  tok_type t = "Scope" /\
  to_py t = Raise (Exn AttributeError "'list' object has no attribute 'items'").
Proof.
  change (to_fs (PyDict DictCls items)) with
    (scope <- mapM (fun kv => t <- to_fs (snd kv) ;; Ok (mkVariable (fst kv) t)) items ;;
     Ok (mkToken "Scope" "" PyFloat.zero [] (Some []) (ScopeList scope) None)).
  destruct (mapM _ items) as [scope|e]; cbn [bind]; [| discriminate].
  intros [= <-]. split; reflexivity.
Qed.

(** C1 (as amended): for every value built from strings, integers of
    magnitude at most 2^53, booleans, [None], byte strings and lists of
    such values, [to_py (to_fs v)] is [v]; a float comes back as the
    integer [floor f] when it is integral and as itself otherwise; a value
    tagged [PyObject] is stored as it is and comes back as the same
    object. *)
Theorem to_py_to_fs_roundtrip :
  (forall v, plain v = true -> (t <- to_fs v ;; to_py t) = Ok v) /\
  (forall f, (t <- to_fs (PyFloat f) ;; to_py t) =
             Ok (if PyFloat.is_integer f then PyInt (PyFloat.floor f) else PyFloat f)) /\
  (forall v, fs_type v = "PyObject" ->
             exists t, to_fs v = Ok t /\ tok_pyobject t = Some v /\ to_py t = Ok v).
Proof.
  split; [| split].
  - intros v Hp. destruct (roundtrip_plain v Hp) as (t & -> & Ht). exact Ht.
  - intros f. destruct (roundtrip_float f) as (t & -> & Ht). exact Ht.
  - intros v Hv. eexists. split; [apply (to_fs_PyObject v Hv) |]. split; reflexivity.
Qed.

Lemma to_py_to_fs_roundtrip_witness :
  let v := PyList [PyInt (-7); PyStr "a"; PyBool true; PyNone; PyList [PyInt two53]] in
  plain v = true /\ (t <- to_fs v ;; to_py t) = Ok v /\
  fs_type (PyInstance "Thing" None 1) = "PyObject" /\
  exists t, to_fs (PyInstance "Thing" None 1) = Ok t /\
            tok_pyobject t = Some (PyInstance "Thing" None 1) /\
            to_py t = Ok (PyInstance "Thing" None 1).
Proof.
  cbn zeta. split; [reflexivity |]. split.
  - apply (proj1 to_py_to_fs_roundtrip). reflexivity.
  - split; [reflexivity |].
    apply (proj2 (proj2 to_py_to_fs_roundtrip)). reflexivity.
Defined.

(** C1 (as stated) fails at the integer [2^53 + 1], which comes back as
    [2^53]; a mapping does not come back at all, [to_py] raising on the
    list [to_fs] stores under [scope]. *)
Lemma roundtrip_fails_large_int :
  (t <- to_fs (PyInt (two53 + 1)) ;; to_py t) = Ok (PyInt two53) /\
  PyInt two53 <> PyInt (two53 + 1) /\
  (t <- to_fs (PyDict DictCls [("a", PyInt 1)]) ;; to_py t) =
    Raise (Exn AttributeError "'list' object has no attribute 'items'").
Proof.
  split; [vm_compute; reflexivity |]. split; [discriminate |].
  vm_compute. reflexivity.
Qed.

(** ** Dispatch on the exact type *)

Lemma to_py_Scope (s : Token) (obj : pyobj) :
  tok_type s = "Scope" -> to_py s = Ok obj -> exists items, obj = PyDict ScopeCls items.
Proof.
  destruct s as [type value number list_ bytes_ scope pyobject]. cbn [tok_type].
  intros ->. cbn.
  destruct scope as [| |vars|entries]; try discriminate.
  - intros [= <-]. now exists [].
  - destruct (mapM _ entries) as [items|e]; cbn; [| discriminate].
    intros [= <-]. now eexists.
Qed.

(** C10 (as amended): [fs_type] looks up the exact runtime type, so a
    value whose type is not itself a key of the table is tagged [PyObject]
    even when that type derives from a key; every [Scope] instance is such
    a value, [Scope] deriving from [dict].  Hence whenever [to_py] returns
    on a token tagged [Scope], the result is a [Scope] instance and
    [to_fs] encodes it as a [PyObject] token holding it. *)
Theorem fs_type_exact_type :
  (forall obj T, proper_subclass (type_of obj) T = true -> registered T = true ->
                 registered (type_of obj) = false -> fs_type obj = "PyObject") /\
  (forall items, proper_subclass (type_of (PyDict ScopeCls items)) Tdict = true /\
                 registered Tdict = true /\
                 fs_type (PyDict ScopeCls items) = "PyObject") /\
  (forall s obj, tok_type s = "Scope" -> to_py s = Ok obj ->
                 type_of obj = TScope /\
                 exists t, to_fs obj = Ok t /\ tok_type t = "PyObject" /\
                           tok_pyobject t = Some obj).
Proof.
  split; [| split].
  - intros obj T _ _ H. now apply fs_type_unregistered.
  - intros items. repeat split.
  - intros s obj Hs Hobj. destruct (to_py_Scope s obj Hs Hobj) as (items & ->).
    split; [reflexivity |]. eexists. split; [reflexivity |]. split; reflexivity.
Qed.

Lemma fs_type_exact_type_witness :
  let s := mkToken "Scope" "" PyFloat.zero [] (Some [])
             (ScopeDict [("a", int_token 1)]) None in
  tok_type s = "Scope" /\ to_py s = Ok (PyDict ScopeCls [("a", PyInt 1)]) /\
  type_of (PyDict ScopeCls [("a", PyInt 1)]) = TScope /\
  (exists t, to_fs (PyDict ScopeCls [("a", PyInt 1)]) = Ok t /\
             tok_type t = "PyObject" /\
             tok_pyobject t = Some (PyDict ScopeCls [("a", PyInt 1)])) /\
  fs_type (PyInstance "Text" (Some "str") 7) = "PyObject".
Proof.
  cbn zeta. split; [reflexivity |]. split; [reflexivity |].
  pose proof (proj2 (proj2 fs_type_exact_type)
                (mkToken "Scope" "" PyFloat.zero [] (Some [])
                   (ScopeDict [("a", int_token 1)]) None)
                (PyDict ScopeCls [("a", PyInt 1)]) eq_refl eq_refl) as [H1 H2].
  split; [exact H1 |]. split; [exact H2 |].
  apply (proj1 fs_type_exact_type (PyInstance "Text" (Some "str") 7) Tstr);
    reflexivity.
Defined.

(** C10 (as stated) fails: [True] is an instance of [bool], a proper
    subclass of the registered [int], and is tagged [Bool]; and the token
    [to_fs] builds for a mapping is tagged [Scope] but [to_py] raises on
    it, so there is nothing to encode again. *)
Lemma subclass_tagging_fails :
  proper_subclass (type_of (PyBool true)) Tint = true /\
  registered Tint = true /\
  fs_type (PyBool true) = "Bool" /\
  to_fs (PyDict DictCls []) =
    Ok (mkToken "Scope" "" PyFloat.zero [] (Some []) (ScopeList []) None) /\
  to_py (mkToken "Scope" "" PyFloat.zero [] (Some []) (ScopeList []) None) =
    Raise (Exn AttributeError "'list' object has no attribute 'items'").
Proof.
  repeat split.
Qed.

(** ** Dictionaries *)

Lemma dict_set_fresh {V : Type} (d : list (string * V)) (k : string) (v : V) :
  ~ In k (map fst d) -> dict_set d k v = (d ++ [(k, v)])%list.
Proof.
  induction d as [|[k' v'] d IH]; cbn; intros H; [reflexivity |].
  destruct (String.eqb_spec k' k) as [E|N]; [tauto |].
  rewrite IH; tauto.
Qed.

Lemma fold_dict_set_NoDup {V : Type} (items acc : list (string * V)) :
  NoDup (map fst (acc ++ items)) ->
  fold_left (fun d kv => dict_set d (fst kv) (snd kv)) items acc = (acc ++ items)%list.
Proof.
  revert acc. induction items as [|[k v] items IH]; intros acc H; cbn.
  - now rewrite app_nil_r.
  - rewrite dict_set_fresh.
    + rewrite IH; rewrite <- app_assoc; [reflexivity | exact H].
    + rewrite map_app in H. cbn in H. apply NoDup_remove_2 in H.
      intros Hin. apply H. apply in_or_app. now left.
Qed.

Lemma dict_of_items_NoDup {V : Type} (items : list (string * V)) :
  NoDup (map fst items) -> dict_of_items items = items.
Proof. intros H. unfold dict_of_items. now rewrite fold_dict_set_NoDup. Qed.

Lemma decode_entries_keys (entries : list (string * Token)) (items : list (string * pyobj)) :
  decode_entries entries = Ok items -> map fst items = map fst entries.
Proof.
  unfold decode_entries. revert items.
  induction entries as [|[k t] entries IH]; cbn; intros items.
  - now intros [= <-].
  - destruct (to_py t) as [v|e]; cbn; [| discriminate].
    destruct (mapM _ entries) as [rest|e]; [| discriminate].
    intros [= <-]. cbn. now rewrite (IH rest).
Qed.

Lemma to_py_ScopeDict (t : Token) (entries : list (string * Token))
  (items : list (string * pyobj)) :
  tok_type t = "Scope" -> tok_scope t = ScopeDict entries ->
  NoDup (map fst entries) -> decode_entries entries = Ok items ->
  to_py t = Ok (PyDict ScopeCls items).
Proof.
  destruct t as [type value number list_ bytes_ scope pyobject].
  cbn [tok_type tok_scope]. intros -> -> Hnd Hdec.
  pose proof (decode_entries_keys _ _ Hdec) as Hk.
  unfold decode_entries in Hdec. cbn. rewrite Hdec. cbn.
  rewrite dict_of_items_NoDup; [reflexivity | now rewrite Hk].
Qed.

(** ** The adapter *)

Lemma invoke_call_args (func : py_function) (with_name : bool) (name : string)
  (args : arguments) (pos : list pyobj) (kw : list (string * pyobj)) :
  call_args with_name name args pos kw ->
  invoke func with_name name args = (r <- func pos kw ;; to_fs r).
Proof.
  intros [t cls kw' Ht Hobj | ts objs Hobjs]; unfold invoke.
  - rewrite Ht, Hobj. reflexivity.
  - rewrite Hobjs. reflexivity.
Qed.

Lemma wrapper_returns (self : Femscript) (func : callable) (func_name : option string)
  (with_name : bool) (name : string) (args : arguments) (scope : list Variable_)
  (pos : list pyobj) (kw : list (string * pyobj)) :
  call_args with_name name args pos kw ->
  adapter_returns func
    (snd (wrap_function self func func_name with_name) name args scope)
    (finish (call func pos kw)).
Proof.
  intros H. unfold adapter_returns, wrap_function, finish. cbn [snd].
  destruct (iscoroutinefunction func); unfold wrapper_async, wrapper_sync;
    rewrite (invoke_call_args _ _ _ _ _ _ H); reflexivity.
Qed.

(** C2 (as amended): the adapter [wrap_function] builds calls the
    callable by keyword with the decoded entries of a single [Scope] token
    that [to_py] decodes, one whose [scope] is a mapping from names to
    tokens, in their order, and by position with the decoded tokens of a
    tuple, in their order; the call name goes first exactly when
    [with_name] is set.  The scope [{a: 1, b: 2}] reaches the callable as
    the keywords [a=1, b=2]. *)
Theorem wrap_function_dispatch (self : Femscript) (func : callable)
  (func_name : option string) (with_name : bool) (name : string)
  (scope : list Variable_) :
  let wrapper := snd (wrap_function self func func_name with_name) in
  let lead := if with_name then [PyStr name] else [] in
  (forall t obj, tok_type t = "Scope" -> to_py t = Ok obj ->
     exists kw, obj = PyDict ScopeCls kw /\
       adapter_returns func (wrapper name (ArgsToken t) scope)
         (finish (call func lead kw))) /\
  (forall t entries items,
     tok_type t = "Scope" -> tok_scope t = ScopeDict entries ->
     NoDup (map fst entries) -> decode_entries entries = Ok items ->
     adapter_returns func (wrapper name (ArgsToken t) scope)
       (finish (call func lead items))) /\
  (forall ts objs, mapM to_py ts = Ok objs ->
     adapter_returns func (wrapper name (ArgsTuple ts) scope)
       (finish (call func (lead ++ objs)%list []))) /\
  (let args := ArgsToken (mkToken "Scope" "" PyFloat.zero [] (Some [])
                 (ScopeDict [("a", int_token 1); ("b", int_token 2)]) None) in
   wrapper_sync echo false name args scope =
     to_fs (PyTuple [PyTuple []; PyDict DictCls [("a", PyInt 1); ("b", PyInt 2)]]) /\
   wrapper_sync echo true name args scope =
     to_fs (PyTuple [PyTuple [PyStr name];
                     PyDict DictCls [("a", PyInt 1); ("b", PyInt 2)]])).
Proof.
  cbn zeta. split; [| split; [| split]].
  - intros t obj Ht Hobj. destruct (to_py_Scope t obj Ht Hobj) as (kw & ->).
    exists kw. split; [reflexivity |].
    apply wrapper_returns. now apply (call_named with_name name t ScopeCls kw).
  - intros t entries items Ht Hsc Hnd Hdec.
    apply wrapper_returns. apply (call_named with_name name t ScopeCls items Ht).
    now apply (to_py_ScopeDict t entries items).
  - intros ts objs Hobjs. apply wrapper_returns. now apply call_positional.
  - split; reflexivity.
Qed.

Lemma wrap_function_dispatch_witness :
  let self := mkFemscript None None [] [] [] in
  let add := mkCallable "add" false
               (fun pos kw =>
                  match pos with
                  | [PyInt x; PyInt y] => Ok (PyInt (x + y))
                  | _ => Raise (Exn TypeError "add() takes 2 positional arguments")
                  end) in
  let ts := [int_token 3; int_token 4] in
  mapM to_py ts = Ok [PyInt 3; PyInt 4] /\
  snd (wrap_function self add None false) "add" (ArgsTuple ts) [] = Ok (int_token 7).
Proof.
  cbn zeta. split; [reflexivity |].
  exact (proj1 (proj2 (proj2
           (wrap_function_dispatch (mkFemscript None None [] [] [])
              (mkCallable "add" false
                 (fun pos kw =>
                    match pos with
                    | [PyInt x; PyInt y] => Ok (PyInt (x + y))
                    | _ => Raise (Exn TypeError "add() takes 2 positional arguments")
                    end))
              None false "add" [])))
         [int_token 3; int_token 4] [PyInt 3; PyInt 4] eq_refl).
Defined.

(** C2 (as stated) fails: for the [Scope] token [to_fs] builds from
    [{a: 1, b: 2}] the adapter raises [AttributeError] whatever the
    callable, and for a list of tokens it raises [TypeError]; the callable
    is not called. *)
Lemma dispatch_fails_on_list_payloads :
  to_fs (PyDict DictCls [("a", PyInt 1); ("b", PyInt 2)]) =
    Ok (mkToken "Scope" "" PyFloat.zero [] (Some [])
          (ScopeList [mkVariable "a" (int_token 1); mkVariable "b" (int_token 2)])
          None) /\
  (forall func with_name name scope,
     wrapper_sync func with_name name
       (ArgsToken (mkToken "Scope" "" PyFloat.zero [] (Some [])
          (ScopeList [mkVariable "a" (int_token 1); mkVariable "b" (int_token 2)])
          None)) scope
     = Raise (Exn AttributeError "'list' object has no attribute 'items'")) /\
  (forall func with_name name scope,
     wrapper_sync func with_name name (ArgsList [int_token 3; int_token 4]) scope
     = Raise (Exn TypeError "list indices must be integers or slices, not str")).
Proof.
  split; [vm_compute; reflexivity |]. split; intros; reflexivity.
Qed.

(** C3: when the call of the wrapped callable raises
    [FemscriptException] with message [m], or an instance of a class
    derived from it, which the [except] clause catches as well, the
    adapter's effective return is the token [error m], tagged [Error] with
    payload ["Error: " ++ m]; an exception of any other class comes out of
    the adapter as it is. *)
Theorem wrap_function_exceptions (self : Femscript) (func : callable)
  (func_name : option string) (with_name : bool) (name : string)
  (args : arguments) (scope : list Variable_)
  (pos : list pyobj) (kw : list (string * pyobj)) (e : exn) :
  let wrapper := snd (wrap_function self func func_name with_name) in
  call_args with_name name args pos kw ->
  call func pos kw = Raise e ->
  (forall m, e = Exn FemscriptException m ->
     adapter_returns func (wrapper name args scope) (Ok (error m)) /\
     tok_type (error m) = "Error" /\ tok_value (error m) = "Error: " ++ m) /\
  (isinstance_FemscriptException e = true ->
     adapter_returns func (wrapper name args scope) (Ok (error (exn_msg e))) /\
     tok_type (error (exn_msg e)) = "Error" /\
     tok_value (error (exn_msg e)) = "Error: " ++ exn_msg e) /\
  (isinstance_FemscriptException e = false ->
     adapter_returns func (wrapper name args scope) (Raise e)).
Proof.
  cbn zeta. intros Hargs Hcall.
  pose proof (wrapper_returns self func func_name with_name name args scope pos kw Hargs)
    as H.
  rewrite Hcall in H. unfold finish, except_FemscriptException in H. cbn [bind] in H.
  split; [| split].
  - intros m ->. split; [exact H |]. split; reflexivity.
  - intros Hi. rewrite Hi in H. split; [exact H |]. split; reflexivity.
  - intros Hi. rewrite Hi in H. exact H.
Qed.

Lemma wrap_function_exceptions_witness :
  let self := mkFemscript None None [] [] [] in
  let failing := mkCallable "check" false
                   (fun pos kw => Raise (Exn FemscriptException "bad input")) in
  let derived := mkCallable "check" false
                   (fun pos kw => Raise (Exn (FemscriptExceptionSubclass "Sub") "sub")) in
  let other := mkCallable "check" false
                 (fun pos kw => Raise (Exn (OtherException "ValueError") "no")) in
  snd (wrap_function self failing None false) "check" (ArgsTuple [int_token 3]) []
    = Ok (error "bad input") /\
  tok_value (error "bad input") = "Error: bad input" /\
  snd (wrap_function self derived None false) "check" (ArgsTuple [int_token 3]) []
    = Ok (error "sub") /\
  snd (wrap_function self other None false) "check" (ArgsTuple [int_token 3]) []
    = Raise (Exn (OtherException "ValueError") "no").
Proof.
  cbn zeta.
  destruct (proj1 (wrap_function_exceptions (mkFemscript None None [] [] [])
              (mkCallable "check" false
                 (fun pos kw => Raise (Exn FemscriptException "bad input")))
              None false "check" (ArgsTuple [int_token 3]) []
              [PyInt 3] [] (Exn FemscriptException "bad input")
              (call_positional false "check" [int_token 3] [PyInt 3] eq_refl)
              eq_refl) "bad input" eq_refl) as (H1 & _ & H3).
  split; [exact H1 |]. split; [exact H3 |]. split.
  - exact (proj1 (proj1 (proj2 (wrap_function_exceptions (mkFemscript None None [] [] [])
              (mkCallable "check" false
                 (fun pos kw => Raise (Exn (FemscriptExceptionSubclass "Sub") "sub")))
              None false "check" (ArgsTuple [int_token 3]) []
              [PyInt 3] [] (Exn (FemscriptExceptionSubclass "Sub") "sub")
              (call_positional false "check" [int_token 3] [PyInt 3] eq_refl)
              eq_refl)) eq_refl)).
  - exact (proj2 (proj2 (wrap_function_exceptions (mkFemscript None None [] [] [])
              (mkCallable "check" false
                 (fun pos kw => Raise (Exn (OtherException "ValueError") "no")))
              None false "check" (ArgsTuple [int_token 3]) []
              [PyInt 3] [] (Exn (OtherException "ValueError") "no")
              (call_positional false "check" [int_token 3] [PyInt 3] eq_refl)
              eq_refl)) eq_refl).
Defined.

(** ** The script instance *)

Section EngineProperties.

Variable generate_tokens : string -> result (list Token).
Variable generate_ast : list Token -> result (list AST).
Variable execute_ast :
  list AST -> list Variable_ -> list Function -> list (string * module_entry) ->
  bool -> result (Token * list (string * Token)).

Lemma variables_of_scope (self : Femscript) (scope : list (string * Token)) :
  _variables self = map (fun kv => mkVariable (fst kv) (snd kv)) scope ->
  NoDup (map fst scope) ->
  variables self = decode_entries scope.
Proof.
  intros Hv Hnd. unfold variables, decode_entries. rewrite Hv.
  assert (E : mapM (fun item => v <- to_py (var_value item) ;; Ok (var_name item, v))
                (map (fun kv => mkVariable (fst kv) (snd kv)) scope)
              = mapM (fun kv => v <- to_py (snd kv) ;; Ok (fst kv, v)) scope).
  { clear. induction scope as [|[k t] scope IH]; cbn; [reflexivity |].
    now rewrite IH. }
  rewrite E.
  destruct (mapM _ scope) as [items|e] eqn:D; cbn; [| reflexivity].
  rewrite dict_of_items_NoDup; [reflexivity |].
  now rewrite (decode_entries_keys scope items D).
Qed.

(** C4: when the evaluator returns the final scope [scope], [execute]
    leaves the binding list holding exactly the pairs of [scope], in its
    order; a name outside [scope] is bound no more, whatever was bound
    before; and the [variables] snapshot is [scope] decoded entry by
    entry. *)
Theorem execute_replaces_bindings (self : Femscript) (debug : bool)
  (prog : list AST) (result : Token) (scope : list (string * Token)) :
  ast self = Some prog ->
  execute_ast prog (_variables self) (_functions self) (_modules self) debug
    = Ok (result, scope) ->
  NoDup (map fst scope) ->
  let self' := snd (execute execute_ast self debug) in
  map (fun v => (var_name v, var_value v)) (_variables self') = scope /\
  List.length (_variables self') = List.length scope /\
  (forall name, ~ In name (map fst scope) ->
                forall v, In v (_variables self') -> var_name v <> name) /\
  variables self' = decode_entries scope /\
  fst (execute execute_ast self debug) = to_py result.
Proof.
  intros Hast Hexec Hnd. unfold execute. rewrite Hast, Hexec. cbn [snd fst _variables].
  split; [| split; [| split; [| split]]].
  - rewrite map_map. cbn. rewrite <- (map_id scope) at 2.
    apply map_ext. now intros [k t].
  - now rewrite length_map.
  - intros name Hname v Hv Heq. apply Hname.
    apply in_map_iff in Hv as ([k t] & <- & Hin). cbn in Heq. subst k.
    now apply (in_map fst scope (name, t)).
  - now apply variables_of_scope.
  - reflexivity.
Qed.

Lemma reparse_single_source (name src : string) (toks : list Token) (prog : list AST) :
  generate_tokens src = Ok toks -> generate_ast toks = Ok prog ->
  reparse_modules generate_tokens generate_ast [name] [(name, Source src)]
    = (Ok tt, [(name, Program prog)]).
Proof.
  intros Ht Hp. cbn [reparse_modules find fst]. rewrite String.eqb_refl.
  cbn [tokenize_entry]. rewrite Ht, Hp. cbn [dict_set]. now rewrite String.eqb_refl.
Qed.

Lemma reparse_single_program (name : string) (prog : list AST) :
  reparse_modules generate_tokens generate_ast [name] [(name, Program prog)]
    = (Raise (Exn TypeError
                "argument 'code': 'list' object cannot be converted to 'PyString'"),
       [(name, Program prog)]).
Proof.
  cbn [reparse_modules find fst]. now rewrite String.eqb_refl.
Qed.

(** C8 does not hold of the code: once [add_module] has
    stored a program under a name, [parse] hands that program to the
    tokenizer and raises; and a second [parse] of an instance constructed
    with a module source fails in the same way, its first [parse] having
    put the program in place of the source. *)
Theorem parse_twice_fails (code1 code2 name src : string)
  (toks1 toks2 toksm : list Token) (prog1 prog2 progm : list AST) :
  generate_tokens code1 = Ok toks1 -> generate_ast toks1 = Ok prog1 ->
  generate_tokens code2 = Ok toks2 -> generate_ast toks2 = Ok prog2 ->
  generate_tokens src = Ok toksm -> generate_ast toksm = Ok progm ->
  let type_error :=
    Exn TypeError "argument 'code': 'list' object cannot be converted to 'PyString'" in
  (let self0 := mkFemscript None None [] [] [] in
   let self1 := snd (add_module generate_tokens generate_ast self0 name src) in
   _modules self1 = [(name, Program progm)] /\
   fst (parse generate_tokens generate_ast self1 (Some code1)) = Raise type_error) /\
  (let self1 := snd (init generate_tokens generate_ast (Some code1) None None
                       (Some [(name, src)])) in
   _modules self1 = [(name, Program progm)] /\
   fst (parse generate_tokens generate_ast self1 (Some code2)) = Raise type_error /\
   _modules (snd (parse generate_tokens generate_ast self1 (Some code2)))
     = [(name, Program progm)]).
Proof.
  intros H1 H1' H2 H2' Hm Hm'. cbn zeta. split.
  - unfold add_module. rewrite Hm, Hm'. cbn [snd _modules dict_set]. split; [reflexivity |].
    unfold parse. cbn [or_default]. rewrite H1, H1'. cbn [_modules map fst].
    rewrite reparse_single_program. reflexivity.
  - assert (E : snd (init generate_tokens generate_ast (Some code1) None None
                       (Some [(name, src)]))
               = mkFemscript (Some toks1) (Some prog1) [] [] [(name, Program progm)]).
    { unfold init, parse. cbn [or_default map fst snd _modules]. rewrite H1, H1'.
      rewrite (reparse_single_source name src toksm progm Hm Hm'). reflexivity. }
    rewrite E. split; [reflexivity |].
    unfold parse. cbn [or_default]. rewrite H2, H2'. cbn [_modules map fst].
    rewrite reparse_single_program. split; reflexivity.
Qed.

End EngineProperties.

Lemma execute_replaces_bindings_witness :
  let engine := fun (prog : list AST) (vars : list Variable_) (fns : list Function)
                    (mods : list (string * module_entry)) (debug : bool) =>
                  Ok (int_token 7, [("y", int_token 2)]) in
  let self := mkFemscript (Some []) (Some []) [mkVariable "x" (int_token 1)] [] [] in
  _variables (snd (execute engine self false)) = [mkVariable "y" (int_token 2)] /\
  variables (snd (execute engine self false)) = Ok [("y", PyInt 2)].
Proof.
  cbn zeta.
  destruct (execute_replaces_bindings
              (fun _ _ _ _ _ => Ok (int_token 7, [("y", int_token 2)]))
              (mkFemscript (Some []) (Some []) [mkVariable "x" (int_token 1)] [] [])
              false [] (int_token 7) [("y", int_token 2)] eq_refl eq_refl)
    as (_ & _ & _ & Hv & _).
  - repeat constructor. intros [].
  - split; [reflexivity | exact Hv].
Defined.

Lemma parse_twice_fails_witness :
  let generate_tokens := fun _ : string => Ok (@nil Token) in
  let generate_ast := fun _ : list Token => Ok (@nil AST) in
  fst (parse generate_tokens generate_ast
         (snd (add_module generate_tokens generate_ast
                 (mkFemscript None None [] [] []) "m" "x = 1;"))
         (Some "y = 2;"))
  = Raise (Exn TypeError
             "argument 'code': 'list' object cannot be converted to 'PyString'").
Proof.
  cbn zeta.
  exact (proj2 (proj1 (parse_twice_fails (fun _ => Ok []) (fun _ => Ok [])
                         "y = 2;" "" "m" "x = 1;" [] [] [] [] [] []
                         eq_refl eq_refl eq_refl eq_refl eq_refl eq_refl))).
Defined.

(** ** Rendering *)

Lemma pyobj_nested_ind (P : pyobj -> Prop)
  (Hstr : forall s, P (PyStr s)) (Hint : forall n, P (PyInt n))
  (Hfloat : forall f, P (PyFloat f)) (Hbool : forall b, P (PyBool b))
  (Hnone : P PyNone) (Hbytes : forall b, P (PyBytes b))
  (Hexc : forall e, P (PyException e)) (Hcoro : forall c, P (PyCoroutine c))
  (Hinst : forall cls base addr, P (PyInstance cls base addr))
  (Hlist : forall l, Forall P l -> P (PyList l))
  (Htuple : forall l, Forall P l -> P (PyTuple l))
  (Hdict : forall cls items, Forall (fun kv => P (snd kv)) items -> P (PyDict cls items)) :
  forall v, P v.
Proof.
  fix IH 1.
  intros [s|n|f|b| |l|b|l|cls items|e|c|cls base addr];
    [apply Hstr | apply Hint | apply Hfloat | apply Hbool | apply Hnone
    | | apply Hbytes | | | apply Hexc | apply Hcoro | apply Hinst].
  - apply Hlist. induction l as [|x l IHl]; constructor; [apply IH | exact IHl].
  - apply Htuple. induction l as [|x l IHl]; constructor; [apply IH | exact IHl].
  - apply Hdict. induction items as [|[k x] items IHl]; constructor;
      [apply IH | exact IHl].
Qed.


Section RenderProperties.

Variable repr_leaf : pyobj -> result string.









End RenderProperties.


(** * Further properties of the codec *)

Lemma Token_nested_ind (P : Token -> Prop)
  (H : forall type value number list_ bytes_ scope pyobject,
         Forall P list_ -> scope_all P scope ->
         P (mkToken type value number list_ bytes_ scope pyobject)) :
  forall t, P t.
Proof.
  fix IH 1.
  intros [type value number list_ bytes_ scope pyobject]. apply H.
  - induction list_ as [|x l IHl]; constructor; [apply IH | exact IHl].
  - destruct scope as [| |vars|entries]; cbn [scope_all]; try exact I.
    + induction vars as [|[n x] l IHl]; constructor; [apply IH | exact IHl].
    + induction entries as [|[n x] l IHl]; constructor; [apply IH | exact IHl].
Qed.

Lemma mapM_Raise {A B : Type} (f : A -> result B) (l : list A) (e : exn) :
  mapM f l = Raise e -> exists x, In x l /\ f x = Raise e.
Proof.
  induction l as [|x l IH]; cbn [mapM]; [discriminate |].
  destruct (f x) as [y|e0] eqn:Fx.
  - destruct (mapM f l) as [ys|e1]; [discriminate |].
    intros [= <-]. destruct (IH eq_refl) as (x0 & Hin & Hx0).
    exists x0. split; [now right | exact Hx0].
  - intros [= <-]. exists x. split; [now left | exact Fx].
Qed.

Lemma mapM_Ok {A B : Type} (f : A -> result B) (l : list A) (ys : list B) :
  mapM f l = Ok ys -> Forall2 (fun x y => f x = Ok y) l ys.
Proof.
  revert ys. induction l as [|x l IH]; cbn [mapM]; intros ys.
  - intros [= <-]. constructor.
  - destruct (f x) as [y|e0] eqn:Fx; [| discriminate].
    destruct (mapM f l) as [ys0|e1]; [| discriminate].
    intros [= <-]. constructor; [exact Fx | now apply IH].
Qed.


Lemma to_fs_PyInt (n : Z) :
  to_fs (PyInt n) =
  (number <- float_ (PyInt n) ;; Ok (mkToken "Int" "" number [] (Some []) ScopeAbsent None)).
Proof. reflexivity. Qed.

Lemma to_fs_PyList (l : list pyobj) :
  to_fs (PyList l) =
  (list_ <- mapM to_fs l ;;
   Ok (mkToken "List" "" PyFloat.zero list_ (Some []) ScopeAbsent None)).
Proof. reflexivity. Qed.

Lemma to_fs_PyDict (items : list (string * pyobj)) :
  to_fs (PyDict DictCls items) =
  (scope <- mapM (fun kv => t <- to_fs (snd kv) ;; Ok (mkVariable (fst kv) t)) items ;;
   Ok (mkToken "Scope" "" PyFloat.zero [] (Some []) (ScopeList scope) None)).
Proof. reflexivity. Qed.

Lemma to_fs_Raise : forall v e, to_fs v = Raise e -> e = overflow.
Proof.
  induction v as [s0|n|f|b| |b|e0|c|cls base addr|l IH|l IH|cls items IH]
    using pyobj_nested_ind; intros e; try discriminate.
  - rewrite to_fs_PyInt. unfold float_. destruct (PyFloat.of_int n); [discriminate |].
    now intros [= <-].
  - rewrite to_fs_PyList. destruct (mapM to_fs l) as [ts|e1] eqn:M; [discriminate |].
    intros [= <-]. destruct (mapM_Raise _ _ _ M) as (x & Hin & Hx).
    rewrite Forall_forall in IH. exact (IH x Hin _ Hx).
  - destruct cls; [| discriminate]. rewrite to_fs_PyDict.
    destruct (mapM _ items) as [ts|e1] eqn:M; [discriminate |].
    intros [= <-]. destruct (mapM_Raise _ _ _ M) as (kv & Hin & Hkv).
    rewrite Forall_forall in IH. specialize (IH kv Hin).
    destruct (to_fs (snd kv)) as [t|e2] eqn:T; [discriminate |].
    injection Hkv as <-. now apply IH.
Qed.




Lemma forallb_Forall2_r {A B : Type} (f : A -> result B) (p : B -> bool)
  (l : list A) (ys : list B) :
  Forall2 (fun x y => f x = Ok y) l ys ->
  Forall (fun x => forall y, f x = Ok y -> p y = true) l ->
  forallb p ys = true.
Proof.
  induction 1 as [|x y l ys Hxy _ IH]; intros Hall; [reflexivity |].
  inversion Hall as [|? ? Hx Hl]; subst. cbn [forallb].
  now rewrite (Hx y Hxy), (IH Hl).
Qed.

Lemma to_fs_shape_tag : forall v t,
  to_fs v = Ok t -> tok_type t = fs_type v /\ to_fs_shaped t = true.
Proof.
  induction v as [s0|n|f|b| |b|e0|c|cls base addr|l IH|l IH|cls items IH]
    using pyobj_nested_ind; intros t;
    try (intros [= <-]; split; [reflexivity |]; cbn;
         rewrite ?orb_true_r, ?String.eqb_refl; reflexivity).
  - rewrite to_fs_PyInt. destruct (float_ (PyInt n)) as [x|e]; [| discriminate].
    intros [= <-]. split; [reflexivity |]. cbn. now rewrite ?orb_true_r.
  - rewrite to_fs_PyList. destruct (mapM to_fs l) as [ts|e] eqn:M; [| discriminate].
    intros [= <-]. split; [reflexivity |].
    assert (F : forallb to_fs_shaped ts = true).
    { apply (forallb_Forall2_r to_fs to_fs_shaped l ts (mapM_Ok _ _ _ M)).
      apply Forall_forall. intros x Hx y Hy. rewrite Forall_forall in IH.
      exact (proj2 (IH x Hx y Hy)). }
    cbn [to_fs_shaped]. rewrite F. cbn. now rewrite ?orb_true_r.
  - destruct cls.
    + rewrite to_fs_PyDict.
      destruct (mapM _ items) as [ts|e] eqn:M; [| discriminate].
      intros [= <-]. split; [reflexivity |].
      assert (F : forallb (fun v => match v with mkVariable _ value => to_fs_shaped value end)
                    ts = true).
      { apply (forallb_Forall2_r _ _ items ts (mapM_Ok _ _ _ M)).
        apply Forall_forall. intros kv Hkv y. rewrite Forall_forall in IH.
        destruct (to_fs (snd kv)) as [t0|e0] eqn:T; [| discriminate].
        intros [= <-]. exact (proj2 (IH kv Hkv t0 T)). }
      cbn [to_fs_shaped]. rewrite F. reflexivity.
    + intros [= <-]. split; reflexivity.
Qed.

Lemma existsb_tags_no_Error (type : string) :
  existsb (String.eqb type) tags = true -> str_contains "Error" type = false.
Proof.
  unfold tags. cbn [existsb]. rewrite !orb_true_iff.
  intros [H|[H|[H|[H|[H|[H|[H|[H|H]]]]]]]]; try discriminate H;
    apply String.eqb_eq in H; subst; reflexivity.
Qed.

Lemma to_fs_no_Error_tag (v : pyobj) (t : Token) :
  to_fs v = Ok t -> str_contains "Error" (tok_type t) = false.
Proof.
  intros H. destruct (to_fs_shape_tag v t H) as [Ht _].
  rewrite Ht. apply existsb_tags_no_Error.
  pose proof (fs_type_in_tags v) as Hin. apply existsb_exists.
  exists (fs_type v). split; [exact Hin | apply String.eqb_refl].
Qed.

(** X2: every token [to_fs] returns carries the tag [fs_type] gives the
    value and has the shape [to_fs_shaped], tokens nested in it included:
    the [bytes] key present, every payload but the tag's own at its
    default, a variable list under [scope] exactly for [Scope] and a value
    under [pyobject] exactly for [PyObject]; its tag never contains
    [Error]. *)
Theorem to_fs_shape (v : pyobj) (t : Token) :
  to_fs v = Ok t ->
  tok_type t = fs_type v /\ to_fs_shaped t = true /\
  str_contains "Error" (tok_type t) = false.
Proof.
  intros H. destruct (to_fs_shape_tag v t H) as [Ht Hs].
  split; [exact Ht |]. split; [exact Hs |]. exact (to_fs_no_Error_tag v t H).
Qed.

Lemma to_fs_shape_witness :
  let v := PyList [PyStr "a"; PyDict DictCls [("k", PyTuple [PyNone])]] in
  exists t, to_fs v = Ok t /\ tok_type t = "List" /\ to_fs_shaped t = true.
Proof.
  cbn zeta. eexists. split; [reflexivity |].
  destruct (to_fs_shape (PyList [PyStr "a"; PyDict DictCls [("k", PyTuple [PyNone])]])
              _ eq_refl) as (H1 & H2 & _).
  split; [exact H1 | exact H2].
Defined.

Lemma mapM_cases {A B : Type} (f : A -> result B) (d : A -> bool) (Q : exn -> Prop)
  (l : list A) :
  Forall (fun x => if d x then exists y, f x = Ok y
                   else exists e, f x = Raise e /\ Q e) l ->
  if forallb d l then exists ys, mapM f l = Ok ys
  else exists e, mapM f l = Raise e /\ Q e.
Proof.
  induction 1 as [|x l Hx _ IH]; cbn [forallb mapM].
  - now exists [].
  - destruct (d x); cbn [andb].
    + destruct Hx as [y ->]. destruct (forallb d l).
      * destruct IH as [ys ->]. now eexists.
      * destruct IH as (e & -> & He). now exists e.
    + destruct Hx as (e & -> & He). now exists e.
Qed.

Lemma to_py_cases : forall t,
  if decodable t then exists v, to_py t = Ok v
  else exists e, to_py t = Raise e /\
                 (exn_class e = KeyError \/ exn_class e = AttributeError).
Proof.
  induction t as [type value number list_ bytes_ scope pyobject IHl IHs]
    using Token_nested_ind.
  destruct (String.eqb_spec type "List") as [->|NL].
  { change (decodable (mkToken "List" value number list_ bytes_ scope pyobject))
      with (forallb decodable list_).
    change (to_py (mkToken "List" value number list_ bytes_ scope pyobject))
      with (l <- mapM to_py list_ ;; Ok (PyList l)).
    pose proof (mapM_cases to_py decodable
                  (fun e => exn_class e = KeyError \/ exn_class e = AttributeError)
                  list_ IHl) as C.
    destruct (forallb decodable list_).
    - destruct C as [ys ->]. now eexists.
    - destruct C as (e & -> & He). now exists e. }
  destruct (String.eqb_spec type "Scope") as [->|NS].
  { destruct scope as [| |vars|entries].
    - now eexists.
    - eexists. split; [reflexivity | now right].
    - eexists. split; [reflexivity | now right].
    - change (decodable (mkToken "Scope" value number list_ bytes_ (ScopeDict entries) pyobject))
        with (forallb (fun kv => decodable (snd kv)) entries).
      change (to_py (mkToken "Scope" value number list_ bytes_ (ScopeDict entries) pyobject))
        with (items <- decode_entries entries ;; Ok (PyDict ScopeCls (dict_of_items items))).
      assert (F : Forall (fun kv =>
                    if decodable (snd kv)
                    then exists y, (v <- to_py (snd kv) ;; Ok (fst kv, v)) = Ok y
                    else exists e, (v <- to_py (snd kv) ;; Ok (fst kv, v)) = Raise e /\
                                   (exn_class e = KeyError \/ exn_class e = AttributeError))
                  entries).
      { cbn [scope_all] in IHs. apply Forall_forall. intros kv Hkv.
        rewrite Forall_forall in IHs. specialize (IHs kv Hkv).
        destruct (decodable (snd kv)).
        - destruct IHs as [v ->]. now eexists.
        - destruct IHs as (e & -> & He). now exists e. }
      pose proof (mapM_cases _ _ _ entries F) as C. unfold decode_entries.
      destruct (forallb (fun kv => decodable (snd kv)) entries).
      + destruct C as [ys ->]. now eexists.
      + destruct C as (e & -> & He). now exists e. }
  destruct (String.eqb_spec type "Str") as [->|N1]; [now eexists |].
  destruct (String.eqb_spec type "Int") as [->|N2]; [now eexists |].
  destruct (String.eqb_spec type "Bool") as [->|N3]; [now eexists |].
  destruct (String.eqb_spec type "None") as [->|N4]; [now eexists |].
  destruct (String.eqb_spec type "Bytes") as [->|N5].
  { destruct bytes_; [now eexists |]. eexists. split; [reflexivity | now left]. }
  destruct (String.eqb_spec type "PyObject") as [->|N6].
  { destruct pyobject; [now eexists |]. eexists. split; [reflexivity | now left]. }
  cbn [to_py decodable].
  rewrite (proj2 (String.eqb_neq _ _) NL), (proj2 (String.eqb_neq _ _) NS),
    (proj2 (String.eqb_neq _ _) N1), (proj2 (String.eqb_neq _ _) N2),
    (proj2 (String.eqb_neq _ _) N3), (proj2 (String.eqb_neq _ _) N4),
    (proj2 (String.eqb_neq _ _) N5), (proj2 (String.eqb_neq _ _) N6).
  destruct (str_contains "Error" type); now eexists.
Qed.

Lemma to_py_Raise_class (t : Token) (e : exn) :
  to_py t = Raise e ->
  decodable t = false /\
  (exn_class e = KeyError \/ exn_class e = AttributeError) /\
  exn_class e <> FemscriptException.
Proof.
  intros He. pose proof (to_py_cases t) as C. destruct (decodable t).
  - destruct C as [v Hv]. rewrite He in Hv. discriminate.
  - destruct C as (e' & He' & Hc). rewrite He in He'. injection He' as <-.
    split; [reflexivity |]. split; [exact Hc |].
    destruct Hc as [-> | ->]; discriminate.
Qed.

(** X3: [to_py] returns exactly on the tokens [decodable] describes; on
    any other token it raises [KeyError] (a missing [bytes] or [pyobject]
    key) or [AttributeError] (a [scope] that is not a mapping), and never
    [FemscriptException]. *)
Theorem to_py_returns_iff :
  (forall t, decodable t = true <-> exists v, to_py t = Ok v) /\
  (forall t e, to_py t = Raise e ->
               decodable t = false /\
               (exn_class e = KeyError \/ exn_class e = AttributeError) /\
               exn_class e <> FemscriptException).
Proof.
  split.
  - intros t. pose proof (to_py_cases t) as C. destruct (decodable t).
    + split; [intros _; exact C | reflexivity].
    + destruct C as (e & He & _). split; [discriminate |].
      intros [v Hv]. rewrite He in Hv. discriminate.
  - exact to_py_Raise_class.
Qed.

Lemma to_py_returns_iff_witness :
  let t := mkToken "List" "" PyFloat.zero
             [int_token 1;
              mkToken "Scope" "" PyFloat.zero [] (Some [])
                (ScopeDict [("a", mkToken "Custom" "text" PyFloat.zero [] None ScopeNone None)])
                None]
             None ScopeAbsent None in
  decodable t = true /\
  (exists v, to_py t = Ok v) /\
  exn_class (Exn AttributeError "'list' object has no attribute 'items'")
    <> FemscriptException.
Proof.
  cbn zeta. split; [reflexivity |]. split.
  - apply (proj1 (proj1 to_py_returns_iff _)). reflexivity.
  - apply (proj2 to_py_returns_iff
             (mkToken "Scope" "" PyFloat.zero [] (Some []) (ScopeList []) None)).
    reflexivity.
Defined.

(** X4: whatever [to_py] returns for a token [to_fs] built has the tag of
    the value that was encoded; a value tagged [PyObject] comes back
    itself, and nothing else comes back as an exception object. *)
Theorem to_py_to_fs_tag (v w : pyobj) (t : Token) :
  to_fs v = Ok t -> to_py t = Ok w ->
  fs_type w = fs_type v /\
  (fs_type v = "PyObject" -> w = v) /\
  (forall e, w = PyException e -> v = PyException e).
Proof.
  destruct v as [s|n|f|b| |l|b|l|cls items|e0|c|cls base addr].
  - intros [= <-] [= <-]. repeat split; discriminate.
  - rewrite to_fs_PyInt. destruct (float_ (PyInt n)) as [x|e]; [| discriminate].
    intros [= <-]. cbn. destruct (PyFloat.is_integer x); intros [= <-];
      repeat split; discriminate.
  - intros [= <-]. cbn. destruct (PyFloat.is_integer f); intros [= <-];
      repeat split; discriminate.
  - intros [= <-] [= <-]. repeat split; discriminate.
  - intros [= <-] [= <-]. repeat split; discriminate.
  - rewrite to_fs_PyList. destruct (mapM to_fs l) as [ts|e]; [| discriminate].
    intros [= <-].
    change (to_py (mkToken "List" "" PyFloat.zero ts (Some []) ScopeAbsent None))
      with (l0 <- mapM to_py ts ;; Ok (PyList l0)).
    destruct (mapM to_py ts); [| discriminate].
    intros [= <-]. repeat split; discriminate.
  - intros [= <-] [= <-]. repeat split; discriminate.
  - intros [= <-] [= <-]. repeat split. intros e [= ].
  - destruct cls.
    + intros Ht. destruct (to_py_to_fs_mapping items t Ht) as [_ Hr].
      rewrite Hr. discriminate.
    + intros [= <-] [= <-]. repeat split. intros e [= ].
  - intros [= <-] [= <-]. repeat split. now intros e [= <-].
  - intros [= <-] [= <-]. repeat split. intros e [= ].
  - intros [= <-] [= <-]. repeat split. intros e [= ].
Qed.

Lemma to_py_to_fs_tag_witness :
  let v := PyList [PyFloat (S754_finite false 3 0); PyException (Exn TypeError "x")] in
  (t <- to_fs v ;; to_py t) = Ok (PyList [PyInt 3; PyException (Exn TypeError "x")]) /\
  fs_type (PyList [PyInt 3; PyException (Exn TypeError "x")]) = fs_type v.
Proof.
  cbn zeta. split; [reflexivity |].
  exact (proj1 (to_py_to_fs_tag
                  (PyList [PyFloat (S754_finite false 3 0); PyException (Exn TypeError "x")])
                  (PyList [PyInt 3; PyException (Exn TypeError "x")])
                  _ eq_refl eq_refl)).
Defined.

(** ** Dictionary keys *)

Lemma dict_set_keys_mem {V : Type} (d : list (string * V)) (k : string) (v : V) :
  In k (map fst d) -> map fst (dict_set d k v) = map fst d.
Proof.
  induction d as [|[k' v'] d IH]; cbn; [tauto |].
  destruct (String.eqb_spec k' k) as [E|N]; [reflexivity |].
  intros [E|H]; [contradiction |]. cbn. now rewrite IH.
Qed.

Lemma dict_set_keys {V : Type} (d : list (string * V)) (k : string) (v : V) :
  map fst (dict_set d k v) =
  if in_dec string_dec k (map fst d) then map fst d else (map fst d ++ [k])%list.
Proof.
  destruct (in_dec string_dec k (map fst d)) as [H|H].
  - now apply dict_set_keys_mem.
  - rewrite dict_set_fresh by exact H. now rewrite map_app.
Qed.

Lemma dict_set_NoDup {V : Type} (d : list (string * V)) (k : string) (v : V) :
  NoDup (map fst d) -> NoDup (map fst (dict_set d k v)).
Proof.
  intros H. rewrite dict_set_keys. destruct (in_dec string_dec k (map fst d)) as [Hk|Hk].
  - exact H.
  - apply NoDup_app; [exact H | repeat constructor; intros [] |].
    intros x Hx [<-|[]]. contradiction.
Qed.

Lemma dict_set_In {V : Type} (d : list (string * V)) (k : string) (v : V) (x : string) :
  In x (map fst (dict_set d k v)) <-> In x (map fst d) \/ x = k.
Proof.
  rewrite dict_set_keys. destruct (in_dec string_dec k (map fst d)) as [Hk|Hk].
  - split; [tauto |]. intros [H| ->]; assumption.
  - rewrite in_app_iff. cbn. intuition congruence.
Qed.

Lemma dict_set_In_other {V : Type} (d : list (string * V)) (k k' : string) (v e : V) :
  k' <> k -> (In (k', e) (dict_set d k v) <-> In (k', e) d).
Proof.
  intros N. induction d as [|[k0 v0] d IH]; cbn [dict_set].
  - cbn. split; [intros [[= E _]|[]]; now elim N | intros []].
  - destruct (String.eqb_spec k0 k) as [->|N0]; cbn [In].
    + split; (intros [[= E _]|H]; [now elim N | now right]).
    + rewrite IH. tauto.
Qed.

Lemma fold_dict_set_keys {V : Type} (items acc : list (string * V)) :
  NoDup (map fst acc) ->
  let d := fold_left (fun d kv => dict_set d (fst kv) (snd kv)) items acc in
  NoDup (map fst d) /\
  (forall x, In x (map fst d) <-> In x (map fst acc) \/ In x (map fst items)).
Proof.
  revert acc. induction items as [|[k v] items IH]; intros acc Hacc; cbn.
  - split; [exact Hacc | tauto].
  - destruct (IH (dict_set acc k v) (dict_set_NoDup acc k v Hacc)) as [Hn Hi].
    split; [exact Hn |]. intros x. rewrite Hi, dict_set_In. intuition congruence.
Qed.

Lemma dict_of_items_keys {V : Type} (items : list (string * V)) :
  NoDup (map fst (dict_of_items items)) /\
  (forall x, In x (map fst (dict_of_items items)) <-> In x (map fst items)).
Proof.
  destruct (fold_dict_set_keys items [] (NoDup_nil _)) as [Hn Hi].
  split; [exact Hn |]. intros x. unfold dict_of_items. rewrite Hi. cbn. tauto.
Qed.

(** X5: the [Scope] mapping [to_py] returns for a [Scope] token has each
    name once, and its names are exactly the names of the token's [scope]
    mapping, none when the key is absent. *)
Theorem to_py_Scope_keys (t : Token) (obj : pyobj) :
  tok_type t = "Scope" -> to_py t = Ok obj ->
  exists items,
    obj = PyDict ScopeCls items /\ NoDup (map fst items) /\
    (forall name, In name (map fst items) <-> In name (scope_names (tok_scope t))).
Proof.
  destruct t as [type value number list_ bytes_ scope pyobject]. cbn [tok_type tok_scope].
  intros ->. destruct scope as [| |vars|entries]; try discriminate.
  - intros [= <-]. exists []. split; [reflexivity |]. split; [constructor | reflexivity].
  - change (to_py (mkToken "Scope" value number list_ bytes_ (ScopeDict entries) pyobject))
      with (items <- decode_entries entries ;; Ok (PyDict ScopeCls (dict_of_items items))).
    destruct (decode_entries entries) as [items|e] eqn:D; [| discriminate].
    intros [= <-]. exists (dict_of_items items). split; [reflexivity |].
    destruct (dict_of_items_keys items) as [Hn Hi]. split; [exact Hn |].
    intros name. rewrite Hi. cbn [scope_names].
    now rewrite (decode_entries_keys entries items D).
Qed.

Lemma to_py_Scope_keys_witness :
  let t := mkToken "Scope" "" PyFloat.zero [] (Some [])
             (ScopeDict [("a", int_token 1); ("b", int_token 2); ("a", int_token 3)]) None in
  to_py t = Ok (PyDict ScopeCls [("a", PyInt 3); ("b", PyInt 2)]) /\
  NoDup (map fst [("a", PyInt 3); ("b", PyInt 2)]).
Proof.
  cbn zeta. split; [reflexivity |].
  destruct (to_py_Scope_keys
              (mkToken "Scope" "" PyFloat.zero [] (Some [])
                 (ScopeDict [("a", int_token 1); ("b", int_token 2); ("a", int_token 3)])
                 None)
              (PyDict ScopeCls [("a", PyInt 3); ("b", PyInt 2)]) eq_refl eq_refl)
    as (items & E & Hn & _).
  injection E as <-. exact Hn.
Defined.

(** * Further properties of the binding list *)

Lemma find_name_upsert (variable : Variable_) (vars : list Variable_) (k : nat) :
  match find_name (var_name variable) vars k with
  | Some index => exists j, index = (k + j)%nat /\ list_assign vars j variable = upsert vars variable
  | None => (vars ++ [variable])%list = upsert vars variable
  end.
Proof.
  revert k. induction vars as [|x vars IH]; intros k; cbn [find_name upsert].
  - reflexivity.
  - destruct (String.eqb (var_name x) (var_name variable)).
    + exists 0%nat. split; [lia | reflexivity].
    + specialize (IH (S k)).
      destruct (find_name (var_name variable) vars (S k)) as [index|].
      * destruct IH as (j & -> & E). exists (S j). split; [lia |].
        change (list_assign (x :: vars) (S j) variable)
          with (x :: list_assign vars j variable). now rewrite E.
      * cbn. now rewrite IH.
Qed.

Lemma add_variable_upsert (self : Femscript) (variable : Variable_) :
  add_variable self variable =
  mkFemscript (tokens self) (ast self) (upsert (_variables self) variable)
    (_functions self) (_modules self).
Proof.
  unfold add_variable. f_equal.
  pose proof (find_name_upsert variable (_variables self) 0) as H.
  destruct (find_name (var_name variable) (_variables self) 0) as [index|].
  - destruct H as (j & -> & E). exact E.
  - exact H.
Qed.

Lemma upsert_names (vars : list Variable_) (variable : Variable_) :
  map var_name (upsert vars variable) =
  if in_dec string_dec (var_name variable) (map var_name vars) then map var_name vars
  else (map var_name vars ++ [var_name variable])%list.
Proof.
  induction vars as [|x vars IH]; cbn [upsert map].
  - destruct (in_dec string_dec (var_name variable) []) as [[]|_]. reflexivity.
  - destruct (String.eqb_spec (var_name x) (var_name variable)) as [E|N].
    + cbn [map]. clear IH.
      destruct (in_dec string_dec (var_name variable) (var_name x :: map var_name vars))
        as [_|H]; [now rewrite E |].
      exfalso. apply H. now left.
    + cbn [map]. rewrite IH.
      destruct (in_dec string_dec (var_name variable) (map var_name vars)) as [H|H];
        destruct (in_dec string_dec (var_name variable) (var_name x :: map var_name vars))
          as [H'|H']; try reflexivity.
      * exfalso. apply H'. now right.
      * destruct H' as [E|H']; [now elim N | contradiction].
Qed.

(** X6: [add_variable] keeps every bound name, binds the new name, and
    binds nothing else; it never makes a name occur twice in a list where
    none did; and the list grows by one entry or not at all. *)
Theorem add_variable_names (self : Femscript) (variable : Variable_) :
  let vars := _variables self in
  let vars' := _variables (add_variable self variable) in
  (forall name, In name (map var_name vars') <->
                In name (map var_name vars) \/ name = var_name variable) /\
  (NoDup (map var_name vars) -> NoDup (map var_name vars')) /\
  (List.length vars <= List.length vars' <= S (List.length vars))%nat /\
  In variable vars'.
Proof.
  cbn zeta. rewrite add_variable_upsert. cbn [_variables].
  pose proof (upsert_names (_variables self) variable) as Hn.
  split; [| split; [| split]].
  - intros name. rewrite Hn.
    destruct (in_dec string_dec (var_name variable) (map var_name (_variables self))).
    + split; [tauto |]. intros [H| ->]; assumption.
    + rewrite in_app_iff. cbn. intuition congruence.
  - intros Hnd. rewrite Hn.
    destruct (in_dec string_dec (var_name variable) (map var_name (_variables self)))
      as [H|H]; [exact Hnd |].
    apply NoDup_app; [exact Hnd | repeat constructor; intros [] |].
    intros x Hx [<-|[]]. contradiction.
  - pose proof (f_equal (@List.length string) Hn) as Hl.
    rewrite !length_map in Hl.
    destruct (in_dec string_dec (var_name variable) (map var_name (_variables self)));
      rewrite ?length_app, ?length_map in Hl; cbn in Hl; lia.
  - clear Hn. induction (_variables self) as [|x l IH]; cbn [upsert]; [now left |].
    destruct (String.eqb (var_name x) (var_name variable)); [now left | now right].
Qed.

Lemma add_variable_names_witness :
  let self := mkFemscript None None [mkVariable "a" (int_token 1)] [] [] in
  map var_name (_variables self) = ["a"] /\
  NoDup (map var_name (_variables (add_variable self (mkVariable "b" (int_token 2))))).
Proof.
  cbn zeta. split; [reflexivity |].
  apply (proj1 (proj2 (add_variable_names
                         (mkFemscript None None [mkVariable "a" (int_token 1)] [] [])
                         (mkVariable "b" (int_token 2))))).
  repeat constructor. intros [].
Defined.

Lemma upsert_upsert (vars : list Variable_) (v1 v2 : Variable_) :
  var_name v1 = var_name v2 -> upsert (upsert vars v1) v2 = upsert vars v2.
Proof.
  intros E. induction vars as [|x vars IH]; cbn [upsert].
  - now rewrite E, String.eqb_refl.
  - rewrite E. destruct (String.eqb (var_name x) (var_name v2)) eqn:X; cbn [upsert].
    + now rewrite E, String.eqb_refl.
    + now rewrite X, IH.
Qed.

(** X7: of two [add_variable] calls with the same name the second wins:
    the instance is the one the second call alone gives. *)
Theorem add_variable_overwrites (self : Femscript) (v1 v2 : Variable_) :
  var_name v1 = var_name v2 ->
  add_variable (add_variable self v1) v2 = add_variable self v2.
Proof.
  intros E. rewrite !add_variable_upsert. cbn [tokens ast _variables _functions _modules].
  now rewrite upsert_upsert.
Qed.

Lemma add_variable_overwrites_witness :
  let self := mkFemscript None None [mkVariable "a" (int_token 1)] [] [] in
  add_variable (add_variable self (mkVariable "b" (int_token 2))) (mkVariable "b" (int_token 3))
  = add_variable self (mkVariable "b" (int_token 3)).
Proof.
  cbn zeta. apply add_variable_overwrites. reflexivity.
Defined.

Lemma mapM_upsert (vars : list Variable_) (variable : Variable_)
  (items : list (string * pyobj)) (x : pyobj) :
  mapM decode_variable vars = Ok items ->
  to_py (var_value variable) = Ok x ->
  mapM decode_variable (upsert vars variable) = Ok (dict_set items (var_name variable) x).
Proof.
  intros Hitems Hx. revert items Hitems.
  assert (Hv : decode_variable variable = Ok (var_name variable, x))
    by (unfold decode_variable; now rewrite Hx).
  induction vars as [|y vars IH]; cbn [mapM upsert]; intros items.
  - intros [= <-]. now rewrite Hv.
  - unfold decode_variable at 1. destruct (to_py (var_value y)) as [vy|e] eqn:Y;
      [| discriminate]. cbn [bind].
    destruct (mapM decode_variable vars) as [rest|e] eqn:R; [| discriminate].
    intros [= <-]. cbn [dict_set].
    destruct (String.eqb_spec (var_name y) (var_name variable)) as [E|N]; cbn [mapM].
    + now rewrite Hv, R, E.
    + unfold decode_variable at 1. rewrite Y. cbn [bind]. now rewrite (IH rest eq_refl).
Qed.

Lemma mapM_upsert_Raise (vars : list Variable_) (variable : Variable_)
  (items : list (string * pyobj)) (e : exn) :
  mapM decode_variable vars = Ok items ->
  to_py (var_value variable) = Raise e ->
  mapM decode_variable (upsert vars variable) = Raise e.
Proof.
  intros Hitems He. revert items Hitems.
  assert (Hv : decode_variable variable = Raise e)
    by (unfold decode_variable; now rewrite He).
  induction vars as [|y vars IH]; cbn [mapM upsert]; intros items.
  - intros _. now rewrite Hv.
  - unfold decode_variable at 1. destruct (to_py (var_value y)) as [vy|e0] eqn:Y;
      [| discriminate]. cbn [bind].
    destruct (mapM decode_variable vars) as [rest|e0] eqn:R; [| discriminate].
    intros _.
    destruct (String.eqb (var_name y) (var_name variable)); cbn [mapM].
    + now rewrite Hv.
    + unfold decode_variable at 1. rewrite Y. cbn [bind]. now rewrite (IH rest eq_refl).
Qed.

Lemma variables_unfold (self : Femscript) :
  variables self = (items <- mapM decode_variable (_variables self) ;; Ok (dict_of_items items)).
Proof. reflexivity. Qed.

Lemma mapM_decode_names (vars : list Variable_) (items : list (string * pyobj)) :
  mapM decode_variable vars = Ok items -> map fst items = map var_name vars.
Proof.
  revert items. induction vars as [|y vars IH]; cbn [mapM]; intros items.
  - now intros [= <-].
  - unfold decode_variable at 1. destruct (to_py (var_value y)) as [vy|e]; [| discriminate].
    cbn [bind]. destruct (mapM decode_variable vars) as [rest|e]; [| discriminate].
    intros [= <-]. cbn. now rewrite (IH rest).
Qed.

(** X8: on a binding list without repeated names, [add_variable] shows in
    the [variables] snapshot as a dictionary assignment: the snapshot
    afterwards is the snapshot before with the decoded value stored under
    the name, in place if the name was bound and last otherwise.  A value
    of the round-trip fragment stored with [var] reads back as itself. *)
Theorem variables_add_variable (self : Femscript) (variable : Variable_)
  (d : list (string * pyobj)) (x : pyobj) :
  NoDup (map var_name (_variables self)) ->
  variables self = Ok d ->
  to_py (var_value variable) = Ok x ->
  variables (add_variable self variable) = Ok (dict_set d (var_name variable) x) /\
  (forall name value,
     plain value = true ->
     exists v, var name value None = Ok v /\
               variables (add_variable self v) = Ok (dict_set d name value)).
Proof.
  intros Hnd Hd Hx. rewrite variables_unfold in Hd.
  destruct (mapM decode_variable (_variables self)) as [items|e] eqn:M; [| discriminate].
  pose proof (mapM_decode_names _ _ M) as Hk.
  cbn [bind] in Hd. rewrite dict_of_items_NoDup in Hd by (now rewrite Hk).
  injection Hd as <-.
  assert (G : forall v y, to_py (var_value v) = Ok y ->
              variables (add_variable self v) = Ok (dict_set items (var_name v) y)).
  { intros v y Hy. rewrite variables_unfold, add_variable_upsert. cbn [_variables].
    rewrite (mapM_upsert _ _ _ _ M Hy). cbn [bind].
    rewrite dict_of_items_NoDup; [reflexivity |].
    apply dict_set_NoDup. now rewrite Hk. }
  split; [now apply G |].
  intros name value Hp. destruct (roundtrip_plain value Hp) as (t & Ht & Ht').
  exists (mkVariable name t). unfold var. rewrite Ht. split; [reflexivity |].
  now apply (G (mkVariable name t) value).
Qed.

Lemma variables_add_variable_witness :
  let self := mkFemscript None None [mkVariable "a" (int_token 1)] [] [] in
  variables (add_variable self (mkVariable "a" (int_token 5))) = Ok [("a", PyInt 5)].
Proof.
  cbn zeta.
  refine (proj1 (variables_add_variable
                   (mkFemscript None None [mkVariable "a" (int_token 1)] [] [])
                   (mkVariable "a" (int_token 5)) [("a", PyInt 1)] (PyInt 5)
                   _ eq_refl eq_refl)).
  repeat constructor. intros [].
Defined.

Lemma upsert_app_mem (l1 l2 : list Variable_) (variable : Variable_) :
  In (var_name variable) (map var_name l1) ->
  upsert (l1 ++ l2) variable = (upsert l1 variable ++ l2)%list.
Proof.
  induction l1 as [|x l1 IH]; cbn [map upsert app]; [intros [] |].
  destruct (String.eqb_spec (var_name x) (var_name variable)) as [E|N]; [reflexivity |].
  intros [E|H]; [contradiction |]. cbn [app]. now rewrite IH.
Qed.

Lemma mapM_app {A B : Type} (f : A -> result B) (a b : list A) (xa xb : list B) :
  mapM f a = Ok xa -> mapM f b = Ok xb -> mapM f (a ++ b) = Ok (xa ++ xb)%list.
Proof.
  revert xa. induction a as [|x a IH]; cbn [mapM app]; intros xa.
  - now intros [= <-].
  - destruct (f x) as [y|e]; [| discriminate].
    destruct (mapM f a) as [ys|e]; [| discriminate].
    intros [= <-] Hb. now rewrite (IH ys eq_refl Hb).
Qed.

Lemma dict_set_In_pair {V : Type} (d : list (string * V)) (k : string) (v : V) :
  In (k, v) (dict_set d k v).
Proof.
  induction d as [|[k' v'] d IH]; cbn [dict_set]; [now left |].
  destruct (String.eqb_spec k' k) as [->|N]; [now left | now right].
Qed.

Lemma fold_dict_set_keeps {V : Type} (items acc : list (string * V)) (k : string) (v : V) :
  ~ In k (map fst items) -> In (k, v) acc ->
  In (k, v) (fold_left (fun d kv => dict_set d (fst kv) (snd kv)) items acc).
Proof.
  revert acc. induction items as [|[k0 v0] items IH]; intros acc Hk Hin; cbn; [exact Hin |].
  cbn in Hk. apply IH; [tauto |].
  apply dict_set_In_other; [intros E; apply Hk; left; now symmetry | exact Hin].
Qed.

Lemma NoDup_keys_functional {V : Type} (d : list (string * V)) (k : string) (x y : V) :
  NoDup (map fst d) -> In (k, x) d -> In (k, y) d -> x = y.
Proof.
  induction d as [|[k0 v0] d IH]; [intros _ [] |].
  cbn [map fst]. intros Hnd [I|I] [J|J]; inversion Hnd as [|? ? Hk Hd]; subst.
  - congruence.
  - exfalso. injection I as -> ->. apply Hk. now apply (in_map fst d (k, y)).
  - exfalso. injection J as -> ->. apply Hk. now apply (in_map fst d (k, x)).
  - now apply IH.
Qed.

(** X9: when a name is bound more than once in the list, [add_variable]
    rewrites the first binding while the [variables] snapshot shows the
    last one: after the call the snapshot still gives the name the value of
    its last binding, and only that value, wherever in the list the
    bindings are. *)
Theorem add_variable_shadowed (self : Femscript) (l1 l3 : list Variable_)
  (name : string) (t2 t3 : Token) (items1 items3 : list (string * pyobj))
  (x2 x3 : pyobj) :
  _variables self = (l1 ++ mkVariable name t2 :: l3)%list ->
  In name (map var_name l1) ->
  ~ In name (map var_name l3) ->
  mapM decode_variable l1 = Ok items1 ->
  mapM decode_variable l3 = Ok items3 ->
  to_py t2 = Ok x2 -> to_py t3 = Ok x3 ->
  exists d,
    variables (add_variable self (mkVariable name t3)) = Ok d /\
    In (name, x2) d /\ NoDup (map fst d) /\
    (forall x, In (name, x) d -> x = x2).
Proof.
  intros Hv Hin Hnot H1 H3' H2 H3.
  rewrite variables_unfold, add_variable_upsert. cbn [_variables]. rewrite Hv.
  rewrite (upsert_app_mem l1 (mkVariable name t2 :: l3) (mkVariable name t3) Hin).
  pose proof (mapM_upsert l1 (mkVariable name t3) items1 x3 H1 H3) as U.
  cbn [var_name] in U.
  assert (L : mapM decode_variable (mkVariable name t2 :: l3) = Ok ((name, x2) :: items3)).
  { cbn [mapM]. unfold decode_variable at 1. cbn [var_value var_name].
    now rewrite H2, H3'. }
  rewrite (mapM_app _ _ _ _ _ U L). cbn [bind].
  set (items := dict_set items1 name x3).
  exists (dict_of_items (items ++ (name, x2) :: items3)).
  split; [reflexivity |].
  destruct (dict_of_items_keys (items ++ (name, x2) :: items3)) as [Hn _].
  assert (I : In (name, x2) (dict_of_items (items ++ (name, x2) :: items3))).
  { unfold dict_of_items. rewrite fold_left_app. cbn [fold_left fst snd].
    apply fold_dict_set_keeps; [| apply dict_set_In_pair].
    now rewrite (mapM_decode_names l3 items3 H3'). }
  split; [exact I |]. split; [exact Hn |].
  intros x Hx. exact (NoDup_keys_functional _ name x x2 Hn Hx I).
Qed.

Lemma add_variable_shadowed_witness :
  let self := mkFemscript None None
                [mkVariable "a" (int_token 1); mkVariable "a" (int_token 2);
                 mkVariable "b" (int_token 4)] [] [] in
  variables (add_variable self (mkVariable "a" (int_token 3)))
    = Ok [("a", PyInt 2); ("b", PyInt 4)] /\
  exists d, variables (add_variable self (mkVariable "a" (int_token 3))) = Ok d /\
            In ("a", PyInt 2) d.
Proof.
  cbn zeta. split; [reflexivity |].
  destruct (add_variable_shadowed
              (mkFemscript None None
                 [mkVariable "a" (int_token 1); mkVariable "a" (int_token 2);
                  mkVariable "b" (int_token 4)] [] [])
              [mkVariable "a" (int_token 1)] [mkVariable "b" (int_token 4)]
              "a" (int_token 2) (int_token 3)
              [("a", PyInt 1)] [("b", PyInt 4)] (PyInt 2) (PyInt 3)
              eq_refl (or_introl eq_refl)) as (d & Hd & Hin & _).
  - intros [E|[]]. discriminate E.
  - reflexivity.
  - reflexivity.
  - reflexivity.
  - reflexivity.
  - exists d. split; [exact Hd | exact Hin].
Defined.

(** X10: [var(name, variables=vs)] ignores [value] and returns the
    variable [name] holding a [Scope] token whose [scope] is the list
    [vs]; [to_py] does not decode that token, so once such a variable is
    bound in an instance whose other bindings decode, reading [variables]
    raises [AttributeError]. *)
Theorem var_scope_unreadable (self : Femscript) (name : string) (value : pyobj)
  (vs : list Variable_) (d : list (string * pyobj)) :
  variables self = Ok d ->
  exists t,
    var name value (Some vs) = Ok (mkVariable name t) /\
    tok_type t = "Scope" /\ tok_scope t = ScopeList vs /\
    variables (add_variable self (mkVariable name t)) =
      Raise (Exn AttributeError "'list' object has no attribute 'items'").
Proof.
  intros Hd. rewrite variables_unfold in Hd.
  destruct (mapM decode_variable (_variables self)) as [items|e] eqn:M; [| discriminate].
  exists (mkToken "Scope" "" PyFloat.zero [] (Some []) (ScopeList vs) None).
  split; [reflexivity |]. split; [reflexivity |]. split; [reflexivity |].
  rewrite variables_unfold, add_variable_upsert. cbn [_variables].
  now rewrite (mapM_upsert_Raise (_variables self)
                 (mkVariable name
                    (mkToken "Scope" "" PyFloat.zero [] (Some []) (ScopeList vs) None))
                 items (Exn AttributeError "'list' object has no attribute 'items'")
                 M eq_refl).
Qed.

Lemma var_scope_unreadable_witness :
  exists t,
    var "s" PyNone (Some [mkVariable "x" (int_token 1)]) = Ok (mkVariable "s" t) /\
    variables (add_variable (mkFemscript None None [mkVariable "a" (int_token 1)] [] [])
                 (mkVariable "s" t))
    = Raise (Exn AttributeError "'list' object has no attribute 'items'").
Proof.
  destruct (var_scope_unreadable
              (mkFemscript None None [mkVariable "a" (int_token 1)] [] [])
              "s" PyNone [mkVariable "x" (int_token 1)] [("a", PyInt 1)] eq_refl)
    as (t & Hv & _ & _ & Hr).
  exists t. split; [exact Hv | exact Hr].
Defined.

(** * Further properties of the script instance *)

Lemma find_app_fresh {V : Type} (done todo : list (string * V)) (k : string) :
  ~ In k (map fst done) ->
  find (fun kv => String.eqb (fst kv) k) (done ++ todo)
  = find (fun kv => String.eqb (fst kv) k) todo.
Proof.
  induction done as [|[k' v'] done IH]; cbn; [reflexivity |].
  intros H. destruct (String.eqb_spec k' k) as [E|N]; [tauto |]. apply IH. tauto.
Qed.

Lemma dict_set_app_fresh {V : Type} (done todo : list (string * V)) (k : string) (v : V) :
  ~ In k (map fst done) ->
  dict_set (done ++ todo) k v = (done ++ dict_set todo k v)%list.
Proof.
  induction done as [|[k' v'] done IH]; cbn; [reflexivity |].
  intros H. destruct (String.eqb_spec k' k) as [E|N]; [tauto |]. rewrite IH; tauto.
Qed.

Section InstanceProperties.

Variable generate_tokens : string -> result (list Token).
Variable generate_ast : list Token -> result (list AST).
Variable execute_ast :
  list AST -> list Variable_ -> list Function -> list (string * module_entry) ->
  bool -> result (Token * list (string * Token)).

(** The module loop of [parse], from any point of the table on. *)
Lemma reparse_modules_inv (todo done : list (string * module_entry)) :
  (forall s, exists toks, generate_tokens s = Ok toks) ->
  (forall toks, exists prog, generate_ast toks = Ok prog) ->
  NoDup (map fst (done ++ todo)) ->
  exists r after,
    reparse_modules generate_tokens generate_ast (map fst todo) (done ++ todo)
      = (r, (done ++ after)%list) /\
    map fst after = map fst todo /\
    (forallb is_source todo = true ->
       r = Ok tt /\
       Forall2 (fun old new =>
                  fst new = fst old /\
                  exists code toks prog,
                    snd old = Source code /\ generate_tokens code = Ok toks /\
                    generate_ast toks = Ok prog /\ snd new = Program prog)
         todo after) /\
    (forallb is_source todo = false -> r = Raise tokenizer_type_error).
Proof.
  intros Htok Hast. revert done.
  induction todo as [|[k entry] todo IH]; intros done Hnd; cbn [map fst reparse_modules].
  - exists (Ok tt), []. split; [reflexivity |]. split; [reflexivity |].
    split; [split; [reflexivity | constructor] | discriminate].
  - assert (Hk : ~ In k (map fst done)).
    { rewrite map_app in Hnd. cbn in Hnd. apply NoDup_remove_2 in Hnd.
      intros H. apply Hnd. apply in_or_app. now left. }
    rewrite (find_app_fresh done ((k, entry) :: todo) k Hk). cbn [find fst].
    rewrite String.eqb_refl.
    destruct entry as [code|prog0]; cbn [tokenize_entry].
    + destruct (Htok code) as [toks Ht]. destruct (Hast toks) as [prog Hp].
      rewrite Ht, Hp. rewrite (dict_set_app_fresh done _ k _ Hk). cbn [dict_set fst].
      rewrite String.eqb_refl.
      change (done ++ (k, Program prog) :: todo)%list
        with (done ++ [(k, Program prog)] ++ todo)%list.
      rewrite app_assoc.
      destruct (IH (done ++ [(k, Program prog)])%list) as (r & after & E & Hn & Hs & Hf).
      { rewrite <- app_assoc. cbn [app]. rewrite !map_app in *. exact Hnd. }
      rewrite E. exists r, ((k, Program prog) :: after).
      split; [now rewrite <- app_assoc |]. split; [cbn; now rewrite Hn |].
      cbn [forallb is_source snd andb]. split.
      * intros Hall. destruct (Hs Hall) as [-> F2]. split; [reflexivity |].
        constructor; [| exact F2]. split; [reflexivity |].
        now exists code, toks, prog.
      * exact Hf.
    + exists (Raise tokenizer_type_error), ((k, Program prog0) :: todo).
      split; [reflexivity |]. split; [reflexivity |].
      cbn [forallb is_source snd andb]. split; [discriminate | reflexivity].
Qed.

Lemma parse_program_entry (self : Femscript) (code : option string) :
  (forall s, exists toks, generate_tokens s = Ok toks) ->
  (forall toks, exists prog, generate_ast toks = Ok prog) ->
  NoDup (map fst (_modules self)) ->
  forallb is_source (_modules self) = false ->
  fst (parse generate_tokens generate_ast self code) = Raise tokenizer_type_error.
Proof.
  intros Htok Hast Hnd Hf. unfold parse.
  destruct (Htok (or_default code "")) as [toks Ht]. destruct (Hast toks) as [prog Hp].
  rewrite Ht, Hp.
  destruct (reparse_modules_inv (_modules self) [] Htok Hast Hnd)
    as (r & after & E & _ & _ & Hr).
  cbn [app] in E. rewrite E. cbn [fst]. exact (Hr Hf).
Qed.

(** X11: with a tokenizer and a parser that accept every input and a
    module table of distinct names, [parse] returns exactly when every
    entry of the table is still source text; it then stores the program of
    [code] and, under each name and in the same order, the program of that
    module's own source.  With any entry already a program it raises the
    tokenizer's [TypeError], the names of the table unchanged. *)
Theorem parse_modules (self : Femscript) (code : option string) :
  (forall s, exists toks, generate_tokens s = Ok toks) ->
  (forall toks, exists prog, generate_ast toks = Ok prog) ->
  NoDup (map fst (_modules self)) ->
  let r := fst (parse generate_tokens generate_ast self code) in
  let self' := snd (parse generate_tokens generate_ast self code) in
  map fst (_modules self') = map fst (_modules self) /\
  (forallb is_source (_modules self) = true ->
     r = Ok tt /\
     (exists toks prog,
        generate_tokens (or_default code "") = Ok toks /\ generate_ast toks = Ok prog /\
        tokens self' = Some toks /\ ast self' = Some prog) /\
     Forall2 (fun old new =>
                fst new = fst old /\
                exists src toks prog,
                  snd old = Source src /\ generate_tokens src = Ok toks /\
                  generate_ast toks = Ok prog /\ snd new = Program prog)
       (_modules self) (_modules self') /\
     forallb is_source (_modules self') = is_nil (_modules self)) /\
  (forallb is_source (_modules self) = false -> r = Raise tokenizer_type_error).
Proof.
  intros Htok Hast Hnd. cbn zeta. unfold parse.
  destruct (Htok (or_default code "")) as [toks Ht]. destruct (Hast toks) as [prog Hp].
  rewrite Ht, Hp.
  destruct (reparse_modules_inv (_modules self) [] Htok Hast Hnd)
    as (r & after & E & Hn & Hs & Hf).
  cbn [app] in E. rewrite E. cbn [fst snd _modules tokens ast].
  split; [exact Hn |]. split; [| exact Hf].
  intros Hall. destruct (Hs Hall) as [-> F2]. split; [reflexivity |].
  split; [now exists toks, prog |]. split; [exact F2 |].
  clear -F2. induction F2 as [|old new l l' (_ & src & tk & pg & _ & _ & _ & Hnew) _ IH];
    [reflexivity |].
  cbn [forallb is_nil]. unfold is_source at 1. now rewrite Hnew.
Qed.

(** X12: [parse] is not all-or-nothing: when the tokenizer rejects
    [code] the instance is as before; when the parser rejects the tokens,
    [self.tokens] is already the new token list while the program and the
    modules are the old ones. *)
Theorem parse_engine_failure (self : Femscript) (code : option string) (e : exn) :
  (generate_tokens (or_default code "") = Raise e ->
   parse generate_tokens generate_ast self code = (Raise e, self)) /\
  (forall toks,
     generate_tokens (or_default code "") = Ok toks -> generate_ast toks = Raise e ->
     let self' := snd (parse generate_tokens generate_ast self code) in
     fst (parse generate_tokens generate_ast self code) = Raise e /\
     tokens self' = Some toks /\ ast self' = ast self /\
     _modules self' = _modules self /\ _variables self' = _variables self).
Proof.
  split.
  - intros H. unfold parse. now rewrite H.
  - intros toks Ht Hp. cbn zeta. unfold parse. rewrite Ht, Hp. repeat split.
Qed.

(** X13: [execute] on an instance that was never parsed raises
    [AttributeError] without calling the evaluator, and an exception of
    the evaluator comes out as it is; in both cases the instance is as
    before.  When the evaluator returns, only the binding list changes,
    it has one entry per key of the returned scope, and this holds even
    when decoding the result then raises. *)
Theorem execute_failures (self : Femscript) (debug : bool) :
  (ast self = None ->
   execute execute_ast self debug =
     (Raise (Exn AttributeError "'Femscript' object has no attribute 'ast'"), self)) /\
  (forall prog e,
     ast self = Some prog ->
     execute_ast prog (_variables self) (_functions self) (_modules self) debug = Raise e ->
     execute execute_ast self debug = (Raise e, self)) /\
  (forall prog result scope,
     ast self = Some prog ->
     execute_ast prog (_variables self) (_functions self) (_modules self) debug
       = Ok (result, scope) ->
     let self' := snd (execute execute_ast self debug) in
     fst (execute execute_ast self debug) = to_py result /\
     tokens self' = tokens self /\ ast self' = ast self /\
     _functions self' = _functions self /\ _modules self' = _modules self /\
     map var_name (_variables self') = map fst scope).
Proof.
  split; [| split].
  - intros H. unfold execute. now rewrite H.
  - intros prog e Ha He. unfold execute. now rewrite Ha, He.
  - intros prog result scope Ha He. cbn zeta. unfold execute. rewrite Ha, He.
    cbn [fst snd tokens ast _functions _modules _variables].
    repeat split; try assumption. rewrite map_map. now apply map_ext.
Qed.

(** X14: an instance constructed without [code] is not parsed: its
    module table holds, under each given name and in the given order, the
    source text given for it, its bindings and functions are the lists
    given (empty by default), and [execute] raises [AttributeError];
    constructed with [code] it is the result of [parse] on that
    instance. *)
Theorem init_unparsed (variables : option (list Variable_))
  (functions : option (list Function)) (modules : option (list (string * string)))
  (debug : bool) :
  let self := snd (init generate_tokens generate_ast None variables functions modules) in
  fst (init generate_tokens generate_ast None variables functions modules) = Ok tt /\
  _modules self = map (fun kv => (fst kv, Source (snd kv))) (or_default modules []) /\
  forallb is_source (_modules self) = true /\
  map fst (_modules self) = map fst (or_default modules []) /\
  _variables self = or_default variables [] /\
  _functions self = or_default functions [] /\
  tokens self = None /\ ast self = None /\
  fst (execute execute_ast self debug) =
    Raise (Exn AttributeError "'Femscript' object has no attribute 'ast'") /\
  (forall code,
     init generate_tokens generate_ast (Some code) variables functions modules
     = parse generate_tokens generate_ast self (Some code)).
Proof.
  cbn zeta. unfold init. cbn [fst snd _modules _variables _functions tokens ast].
  split; [reflexivity |]. split; [reflexivity |]. split.
  { induction (or_default modules []) as [|kv l IH]; [reflexivity | exact IH]. }
  split; [now rewrite map_map |]. repeat split.
Qed.

End InstanceProperties.

Lemma parse_modules_witness :
  let generate_tokens := fun _ : string => Ok (@nil Token) in
  let generate_ast := fun _ : list Token => Ok (@nil AST) in
  let self := mkFemscript None None [] [] [("m", Source "x = 1;"); ("n", Source "")] in
  parse generate_tokens generate_ast self (Some "y = 2;")
  = (Ok tt, mkFemscript (Some []) (Some []) [] [] [("m", Program []); ("n", Program [])]) /\
  fst (parse generate_tokens generate_ast
         (snd (parse generate_tokens generate_ast self (Some "y = 2;"))) (Some "y = 2;"))
  = Raise tokenizer_type_error.
Proof.
  cbn zeta. split; [reflexivity |].
  refine (proj2 (proj2 (parse_modules (fun _ => Ok []) (fun _ => Ok [])
                          (mkFemscript (Some []) (Some []) [] []
                             [("m", Program []); ("n", Program [])])
                          (Some "y = 2;") _ _ _)) eq_refl).
  - intros s. now exists [].
  - intros toks. now exists [].
  - repeat constructor; cbn; intuition discriminate.
Defined.

Lemma parse_engine_failure_witness :
  let generate_tokens := fun _ : string => Raise (Exn (OtherException "SyntaxError") "bad") in
  let generate_ast := fun _ : list Token => Ok (@nil AST) in
  let self := mkFemscript None None [] [] [("m", Source "x")] in
  parse generate_tokens generate_ast self (Some "(") =
    (Raise (Exn (OtherException "SyntaxError") "bad"), self).
Proof.
  cbn zeta.
  exact (proj1 (parse_engine_failure
                  (fun _ => Raise (Exn (OtherException "SyntaxError") "bad"))
                  (fun _ => Ok [])
                  (mkFemscript None None [] [] [("m", Source "x")]) (Some "(")
                  (Exn (OtherException "SyntaxError") "bad")) eq_refl).
Defined.

Lemma execute_failures_witness :
  let engine := fun (prog : list AST) (vars : list Variable_) (fns : list Function)
                    (mods : list (string * module_entry)) (debug : bool) =>
                  @Raise (Token * list (string * Token))
                    (Exn (OtherException "RuntimeError") "boom") in
  let self := mkFemscript (Some []) (Some []) [mkVariable "x" (int_token 1)] [] [] in
  execute engine self false = (Raise (Exn (OtherException "RuntimeError") "boom"), self).
Proof.
  cbn zeta.
  exact (proj1 (proj2 (execute_failures
                         (fun _ _ _ _ _ => Raise (Exn (OtherException "RuntimeError") "boom"))
                         (mkFemscript (Some []) (Some []) [mkVariable "x" (int_token 1)] [] [])
                         false))
           [] (Exn (OtherException "RuntimeError") "boom") eq_refl eq_refl).
Defined.

Lemma dict_set_split {V : Type} (d : list (string * V)) (k : string) (v : V) :
  In k (map fst d) ->
  exists before old after,
    d = (before ++ (k, old) :: after)%list /\
    ~ In k (map fst before) /\
    dict_set d k v = (before ++ (k, v) :: after)%list.
Proof.
  induction d as [|[k0 v0] d IH]; cbn [map fst dict_set]; [intros [] |].
  destruct (String.eqb_spec k0 k) as [->|N].
  - intros _. exists [], v0, d. split; [reflexivity |]. split; [intros [] | reflexivity].
  - intros [E|H]; [contradiction |].
    destruct (IH H) as (before & old & after & -> & Hb & ->).
    exists ((k0, v0) :: before), old, after. split; [reflexivity |].
    split; [| reflexivity]. cbn. intros [E|E]; [contradiction | now apply Hb].
Qed.

Lemma dict_set_Program (d : list (string * module_entry)) (k : string) (prog : list AST) :
  forallb is_source (dict_set d k (Program prog)) = false.
Proof.
  induction d as [|[k0 v0] d IH]; cbn [dict_set]; [reflexivity |].
  destruct (String.eqb k0 k); cbn [forallb]; [reflexivity |].
  rewrite IH. apply andb_false_r.
Qed.

Section ModuleProperties.

Variable generate_tokens : string -> result (list Token).
Variable generate_ast : list Token -> result (list AST).

(** X15: a successful [add_module] stores the program of [code] under
    [name]: when the name was registered, in the place of its entry, the
    entries before and after it as they were; otherwise after the last
    entry.  Every other entry, the bindings, the program and the
    distinctness of names are as they were; when the tokenizer or the
    parser rejects [code] the instance is unchanged.  After a successful
    [add_module] the table holds a program, so with an engine that accepts
    every input the next [parse] raises [TypeError]. *)
Theorem add_module_spec (self : Femscript) (name code : string) :
  (forall toks prog,
     generate_tokens code = Ok toks -> generate_ast toks = Ok prog ->
     let self' := snd (add_module generate_tokens generate_ast self name code) in
     fst (add_module generate_tokens generate_ast self name code) = Ok tt /\
     (In name (map fst (_modules self)) ->
      exists before old after,
        _modules self = (before ++ (name, old) :: after)%list /\
        ~ In name (map fst before) /\
        _modules self' = (before ++ (name, Program prog) :: after)%list) /\
     (~ In name (map fst (_modules self)) ->
      _modules self' = (_modules self ++ [(name, Program prog)])%list) /\
     In (name, Program prog) (_modules self') /\
     (forall k e, k <> name -> (In (k, e) (_modules self') <-> In (k, e) (_modules self))) /\
     (forall k, In k (map fst (_modules self')) <->
                In k (map fst (_modules self)) \/ k = name) /\
     (NoDup (map fst (_modules self)) -> NoDup (map fst (_modules self'))) /\
     _variables self' = _variables self /\ ast self' = ast self /\
     ((forall s, exists tk, generate_tokens s = Ok tk) ->
      (forall tk, exists p, generate_ast tk = Ok p) ->
      NoDup (map fst (_modules self)) ->
      forall code', fst (parse generate_tokens generate_ast self' code')
                    = Raise tokenizer_type_error)) /\
  (forall e, generate_tokens code = Raise e ->
             add_module generate_tokens generate_ast self name code = (Raise e, self)) /\
  (forall toks e, generate_tokens code = Ok toks -> generate_ast toks = Raise e ->
                  add_module generate_tokens generate_ast self name code = (Raise e, self)).
Proof.
  split; [| split].
  - intros toks prog Ht Hp. cbn zeta. unfold add_module. rewrite Ht, Hp.
    cbn [fst snd _modules _variables ast].
    split; [reflexivity |].
    split; [intros Hin; exact (dict_set_split (_modules self) name (Program prog) Hin) |].
    split; [intros Hin; now apply dict_set_fresh |].
    split; [apply dict_set_In_pair |].
    split; [intros k e N; now apply dict_set_In_other |].
    split; [intros k; apply dict_set_In |].
    split; [apply dict_set_NoDup |]. split; [reflexivity |]. split; [reflexivity |].
    intros Htok Hast Hnd code'.
    apply (parse_program_entry generate_tokens generate_ast
             (mkFemscript (tokens self) (ast self) (_variables self) (_functions self)
                (dict_set (_modules self) name (Program prog)))
             code' Htok Hast).
    + apply dict_set_NoDup. exact Hnd.
    + apply dict_set_Program.
  - intros e H. unfold add_module. now rewrite H.
  - intros toks e Ht Hp. unfold add_module. now rewrite Ht, Hp.
Qed.

End ModuleProperties.

Lemma add_module_spec_witness :
  let generate_tokens := fun _ : string => Ok (@nil Token) in
  let generate_ast := fun _ : list Token => Ok (@nil AST) in
  let self := mkFemscript None None [] [] [("m", Source "x"); ("k", Source "z")] in
  _modules (snd (add_module generate_tokens generate_ast self "n" "y"))
    = [("m", Source "x"); ("k", Source "z"); ("n", Program [])] /\
  _modules (snd (add_module generate_tokens generate_ast self "m" "y"))
    = [("m", Program []); ("k", Source "z")].
Proof.
  cbn zeta. split.
  - refine (proj1 (proj2 (proj2 (proj1 (add_module_spec (fun _ => Ok []) (fun _ => Ok [])
                                (mkFemscript None None [] []
                                   [("m", Source "x"); ("k", Source "z")]) "n" "y")
                         [] [] eq_refl eq_refl))) _).
    cbn. intuition discriminate.
  - reflexivity.
Defined.

(** * Further properties of the adapter *)

Lemma invoke_Ok (func : py_function) (with_name : bool) (name : string)
  (args : arguments) (t : Token) :
  invoke func with_name name args = Ok t -> exists r, to_fs r = Ok t.
Proof.
  unfold invoke. destruct args as [ts|ts|t0].
  - destruct (mapM to_py ts) as [objs|e]; [| discriminate]. cbn [bind].
    destruct (func _ _) as [r|e]; [| discriminate]. cbn [bind]. intros H. now exists r.
  - discriminate.
  - destruct (String.eqb (tok_type t0) "Scope"); [| discriminate].
    destruct (to_py t0) as [obj|e]; [| discriminate]. cbn [bind].
    destruct (as_kwargs obj) as [kw|e]; [| discriminate]. cbn [bind].
    destruct (func _ _) as [r|e]; [| discriminate]. cbn [bind]. intros H. now exists r.
Qed.

Lemma invoke_Raise_instance (func : py_function) (with_name : bool)
  (name : string) (args : arguments) (e : exn) :
  invoke func with_name name args = Raise e ->
  isinstance_FemscriptException e = true ->
  exists pos kw, call_args with_name name args pos kw /\ func pos kw = Raise e.
Proof.
  assert (P : forall t e0, to_py t = Raise e0 -> isinstance_FemscriptException e0 = false).
  { intros t e0 H. destruct (to_py_Raise_class _ _ H) as (_ & [Hc|Hc] & _);
      unfold isinstance_FemscriptException; now rewrite Hc. }
  unfold invoke. destruct args as [ts|ts|t0].
  - destruct (mapM to_py ts) as [objs|e0] eqn:M; cbn [bind].
    + destruct (func _ _) as [r|e0] eqn:F; cbn [bind].
      * intros H Hi. rewrite (to_fs_Raise _ _ H) in Hi. discriminate Hi.
      * intros [= ->] _. eexists _, _.
        split; [exact (call_positional with_name name ts objs M) | exact F].
    + intros [= ->] Hi. destruct (mapM_Raise _ _ _ M) as (x & _ & Hx).
      rewrite (P _ _ Hx) in Hi. discriminate Hi.
  - intros [= <-]. discriminate.
  - destruct (String.eqb_spec (tok_type t0) "Scope") as [Ht|];
      [| intros [= <-]; discriminate].
    destruct (to_py t0) as [obj|e0] eqn:T; cbn [bind].
    + destruct (to_py_Scope t0 obj Ht T) as (kw & ->). cbn [as_kwargs bind].
      destruct (func _ _) as [r|e0] eqn:F; cbn [bind].
      * intros H Hi. rewrite (to_fs_Raise _ _ H) in Hi. discriminate Hi.
      * intros [= ->] _. eexists _, _.
        split; [exact (call_named with_name name t0 ScopeCls kw Ht T) | exact F].
    + intros [= ->] Hi. rewrite (P _ _ T) in Hi. discriminate Hi.
Qed.

(** X16: no instance of [FemscriptException] comes out of the wrapper of
    a plain callable, whatever the callable and the arguments; the wrapper
    returns a token whose tag contains [Error] only as [error m] for an
    instance of [FemscriptException], of the class itself or of a class
    derived from it, with message [m], that the callable itself raised;
    and the wrapper of an [async def] callable never raises when called:
    it returns a [PyObject] token holding the coroutine, whose outcome is
    what the plain wrapper returns or raises. *)
Theorem wrapper_containment (func : py_function) (with_name : bool) (name : string)
  (args : arguments) (scope : list Variable_) :
  (forall e, wrapper_sync func with_name name args scope = Raise e ->
             isinstance_FemscriptException e = false) /\
  (forall t, wrapper_sync func with_name name args scope = Ok t ->
             str_contains "Error" (tok_type t) = true ->
             exists pos kw e,
               call_args with_name name args pos kw /\
               func pos kw = Raise e /\
               isinstance_FemscriptException e = true /\ t = error (exn_msg e)) /\
  wrapper_async func with_name name args scope =
    Ok (mkToken "PyObject" "" PyFloat.zero [] (Some []) ScopeAbsent
          (Some (PyCoroutine (wrapper_sync func with_name name args scope)))).
Proof.
  split; [| split; [| reflexivity]]; unfold wrapper_sync, except_FemscriptException.
  - intros e. destruct (invoke func with_name name args) as [t|e0]; [discriminate |].
    destruct (isinstance_FemscriptException e0) eqn:Hi; [discriminate |].
    now intros [= <-].
  - intros t. destruct (invoke func with_name name args) as [t0|e0] eqn:I.
    + intros [= <-] He. destruct (invoke_Ok _ _ _ _ _ I) as [r Hr].
      rewrite (to_fs_no_Error_tag r t0 Hr) in He. discriminate.
    + destruct (isinstance_FemscriptException e0) eqn:Hi; [| discriminate].
      intros [= <-] _.
      destruct (invoke_Raise_instance _ _ _ _ _ I Hi) as (pos & kw & Hc & Hf).
      now exists pos, kw, e0.
Qed.

Lemma wrapper_containment_witness :
  let func := fun (pos : list pyobj) (kw : list (string * pyobj)) =>
                @Raise pyobj (Exn (FemscriptExceptionSubclass "Sub") "no") in
  wrapper_sync func false "f" (ArgsTuple []) [] = Ok (error "no") /\
  exists pos kw e,
    call_args false "f" (ArgsTuple []) pos kw /\
    func pos kw = Raise e /\
    isinstance_FemscriptException e = true /\ error "no" = error (exn_msg e).
Proof.
  cbn zeta. split; [reflexivity |].
  exact (proj1 (proj2 (wrapper_containment
                         (fun _ _ => Raise (Exn (FemscriptExceptionSubclass "Sub") "no"))
                         false "f" (ArgsTuple []) []))
           (error "no") eq_refl eq_refl).
Defined.

(** * Further properties of the rendering *)



(** * The snapshot *)

(** X18: when the [variables] property returns, the dictionary has each
    key once and its keys are exactly the bound names; when it raises, the
    exception is the [KeyError] or [AttributeError] that [to_py] raises on
    the token of one of the bindings. *)
Theorem variables_keys (self : Femscript) :
  (forall d, variables self = Ok d ->
     NoDup (map fst d) /\
     (forall name, In name (map fst d) <-> In name (map var_name (_variables self)))) /\
  (forall e, variables self = Raise e ->
     (exists v, In v (_variables self) /\ to_py (var_value v) = Raise e) /\
     (exn_class e = KeyError \/ exn_class e = AttributeError)).
Proof.
  split.
  - intros d. rewrite variables_unfold.
    destruct (mapM decode_variable (_variables self)) as [items|e] eqn:M; [| discriminate].
    intros [= <-]. destruct (dict_of_items_keys items) as [Hn Hi].
    split; [exact Hn |]. intros name. now rewrite Hi, (mapM_decode_names _ _ M).
  - intros e. rewrite variables_unfold.
    destruct (mapM decode_variable (_variables self)) as [items|e0] eqn:M; [discriminate |].
    intros [= <-]. destruct (mapM_Raise _ _ _ M) as (v & Hin & Hv).
    unfold decode_variable in Hv.
    destruct (to_py (var_value v)) as [x|e1] eqn:P; [discriminate |].
    injection Hv as <-. split; [now exists v |].
    exact (proj1 (proj2 (to_py_Raise_class _ _ P))).
Qed.

Lemma variables_keys_witness :
  let self := mkFemscript None None
                [mkVariable "a" (int_token 1);
                 mkVariable "b" (mkToken "Bytes" "" PyFloat.zero [] None ScopeAbsent None)]
                [] [] in
  variables self = Raise (Exn KeyError "'bytes'") /\
  (exn_class (Exn KeyError "'bytes'") = KeyError \/
   exn_class (Exn KeyError "'bytes'") = AttributeError).
Proof.
  cbn zeta. split; [reflexivity |].
  exact (proj2 (proj2 (variables_keys
                         (mkFemscript None None
                            [mkVariable "a" (int_token 1);
                             mkVariable "b"
                               (mkToken "Bytes" "" PyFloat.zero [] None ScopeAbsent None)]
                            [] []))
                  (Exn KeyError "'bytes'") eq_refl)).
Defined.
